(** * CV automation: a shallow embedding of [cv_automation.py]

    The development follows the class [CVAutomation]: its parsers
    ([parse_cv], [parse_instructions], [parse_job_description]), the slide
    population engine ([_populate_slides]), the traceability log
    ([_log_traceability], [generate_traceability_report]) and the driver
    ([run]).

    Conventions of the embedding.
    - A Python [str] is a [string]; every [ascii] stands for one character
      (a code point below 256), so [len] is [String.length].
    - The mutable attributes of [self], the clock and the files written by a
      run form the [State]; the immutable attributes (the paths) form the
      [Config]; whatever the program asks of its collaborators (the file
      system, pandas, python-pptx, [str()], the clock) is an oracle of the
      [Env].
    - A method is a computation [M A]: it takes a state and returns a
      state together with a value or a raised exception.  The state
      survives an exception, as the attributes of a Python object do.
    - Calls to [self.logger] write to the console and to a log file only;
      they touch nothing the claims speak of and are left out. *)

From Stdlib Require Import ZArith Lia Ascii String.
From stdpp Require Import base gmap strings list fin_maps.

Local Open Scope string_scope.

(** ** Python strings *)

Module PyStr.

(** The newline character, written [\n] in the source. *)
Definition nl : ascii := "010"%char.

Definition nl_str : string := String nl "".

(** [s[:n]]. *)
Definition slice_to (n : nat) (s : string) : string := substring 0 n s.

(** [str.isspace] on the characters below 256: tab, line feed, vertical
    tab, form feed, carriage return, the four separators FS GS RS US,
    space, NEL and the no-break space. *)
Definition isspace (c : ascii) : bool :=
  let n := nat_of_ascii c in
  (((9 <=? n) && (n <=? 13)) || ((28 <=? n) && (n <=? 32))
   || (n =? 133) || (n =? 160))%nat.

(** [str.lower] on one character below 256: the Latin capitals, and the
    accented capitals of Latin-1 except the multiplication sign. *)
Definition lower_char (c : ascii) : ascii :=
  let n := nat_of_ascii c in
  if (((65 <=? n) && (n <=? 90))
      || ((192 <=? n) && (n <=? 222) && negb (n =? 215)))%nat
  then ascii_of_nat (n + 32)%nat else c.

Fixpoint lower (s : string) : string :=
  match s with
  | EmptyString => EmptyString
  | String c r => String (lower_char c) (lower r)
  end.

Fixpoint lstrip (s : string) : string :=
  match s with
  | EmptyString => EmptyString
  | String c r => if isspace c then lstrip r else s
  end.

Fixpoint rstrip (s : string) : string :=
  match s with
  | EmptyString => EmptyString
  | String c r =>
      match rstrip r with
      | EmptyString => if isspace c then EmptyString else String c EmptyString
      | r' => String c r'
      end
  end.

(** [s.strip()]. *)
Definition strip (s : string) : string := rstrip (lstrip s).

(** [s.split(sep)] for a separator of one character. *)
Fixpoint split (sep : ascii) (s : string) : list string :=
  match s with
  | EmptyString => [EmptyString]
  | String c r =>
      if Ascii.eqb c sep then EmptyString :: split sep r
      else match split sep r with
           | h :: t => String c h :: t
           | [] => [String c EmptyString]
           end
  end.

(** [sep.join(l)]. *)
Fixpoint join (sep : string) (l : list string) : string :=
  match l with
  | [] => EmptyString
  | [x] => x
  | x :: r => x ++ sep ++ join sep r
  end.

(** [s.endswith(t)]. *)
Definition endswith (s t : string) : bool :=
  String.eqb (substring (String.length s - String.length t)%nat (String.length t) s) t
  && (String.length t <=? String.length s)%nat.

(** The truth value of a string: the empty string is false. *)
Definition truthy (s : string) : bool := negb (String.eqb s EmptyString).

(** [c * n]. *)
Fixpoint repeat_char (c : ascii) (n : nat) : string :=
  match n with
  | O => EmptyString
  | S k => String c (repeat_char c k)
  end.

(** Indexing a Python list: a negative index counts from the end, an
    index out of range raises (here: [None]). *)
Definition getitem {A : Type} (l : list A) (i : Z) : option A :=
  let n := Z.of_nat (length l) in
  if (0 <=? i)%Z && (i <? n)%Z then l !! Z.to_nat i
  else if (- n <=? i)%Z && (i <? 0)%Z then l !! Z.to_nat (n + i)
  else None.

End PyStr.

(** ** Data model *)

(** A [pathlib.Path], as far as the program reads it: [str(p)] and
    [p.name]; [p.suffix] is computed from the name. *)
Record Path := { path_str : string; path_name : string }.

(** The part of [s] that starts at its last dot, when it has one. *)
Fixpoint from_last_dot (s : string) : option string :=
  match s with
  | EmptyString => None
  | String c r =>
      match from_last_dot r with
      | Some t => Some t
      | None => if Ascii.eqb c "."%char then Some s else None
      end
  end.

(** [PurePath.suffix]: with [i] the index of the last dot of the name,
    [name[i:]] when [0 < i < len(name) - 1], the empty string otherwise. *)
Definition suffix (p : Path) : string :=
  match path_name p with
  | EmptyString => EmptyString
  | String _ r =>
      match from_last_dot r with
      | Some t => if (1 <? String.length t)%nat then t else EmptyString
      | None => EmptyString
      end
  end.

(** [d / name], for a [name] of one component and a POSIX path [d] in
    the form [pathlib] keeps it: the current directory [.] has no
    component, so the result is the name alone; after a root, which ends
    with the separator, no separator is added. *)
Definition joinpath (d : Path) (name : string) : Path :=
  {| path_str :=
       if String.eqb (path_str d) "." then name
       else if PyStr.endswith (path_str d) "/" then path_str d ++ name
            else path_str d ++ "/" ++ name;
     path_name := name |}.

(** A value of type [Any] in a cell of the instruction sheet: a string,
    the [nan] of an empty cell, or any other object, known by its [repr]. *)
Inductive pyobj :=
| PyStr (s : string)
| PyNaN
| PyOther (repr : string).

(** The dictionary [cv_data] built by [parse_cv]. *)
Record CVData := {
  cv_file_path : string;
  cv_file_name : string;
  cv_parsed_date : string;
  cv_sections : gmap string string;
  cv_raw_text : string
}.

(** One entry of [instructions['rules']]. *)
Record Rule := {
  rule_section : pyobj;
  rule_field : pyobj;
  rule_rule : pyobj;
  rule_value : pyobj
}.

(** The dictionary [instructions] built by [parse_instructions];
    a row of the sheet is a mapping from column label to cell. *)
Record Instructions := {
  ins_file_path : string;
  ins_parsed_date : string;
  ins_rules : list Rule;
  ins_mappings : gmap string pyobj;
  ins_raw_data : list (gmap string pyobj)
}.

(** The dictionary [job_requirements] built by [parse_job_description]. *)
Record JobRequirements := {
  jd_file_path : string;
  jd_parsed_date : string;
  jd_raw_text : string;
  jd_requirements : list string;
  jd_key_skills : list string
}.

(** One entry of [traceability_log]. *)
Record TraceEntry := {
  entry_timestamp : string;
  entry_step : string;
  entry_description : string;
  entry_data_summary : string
}.

(** The [data] argument of [_log_traceability]. *)
Inductive Data :=
| DataCV (d : CVData)
| DataInstructions (i : Instructions)
| DataJD (j : JobRequirements)
| DataOutput (output_path : string).

(** *** The slide document, as python-pptx presents it *)

(** A shape of a slide: a placeholder (index 0 is the title) or a text box
    with its position, its text and its word-wrap flag. *)
Inductive Shape :=
| Placeholder (idx : nat) (text : string)
| TextBox (left top width height : Z) (text : string) (word_wrap : bool).

(** A layout and the indices of the placeholders a new slide inherits. *)
Record SlideLayout := { layout_name : string; layout_placeholders : list nat }.

Record Slide := { slide_layout : SlideLayout; shapes : list Shape }.

Record Presentation := { slide_layouts : list SlideLayout; slides : list Slide }.

(** The report written by [generate_traceability_report]. *)
Record Report := {
  rep_generated_at : string;
  rep_cv : string;
  rep_instructions : string;
  rep_template : string;
  rep_job_description : option string;
  rep_processing_log : list TraceEntry;
  rep_total_steps : nat;
  rep_cv_sections_extracted : nat;
  rep_instruction_rules : nat
}.

(** A file written by a run: a complete slide document, a complete
    report, or what a write that failed after creating the file leaves
    (an empty or truncated file). *)
Inductive File :=
| PptxFile (prs : Presentation)
| ReportFile (r : Report)
| PartialFile.

Inductive exn :=
| ValueError (msg : string)
| IndexError (msg : string)
| OSError (msg : string).

Inductive Result (A : Type) :=
| Ok (a : A)
| Raise (e : exn).

Arguments Ok {A} a.
Arguments Raise {A} e.

(** ** Environment, configuration and state *)

(** What the collaborators answer.  [Some e] or [inr e] is the exception a
    call raises.
    - [env_read_excel] gives the rows of the sheet as [df.iterrows()]
      yields them, [env_records] the same frame as
      [df.to_dict('records')] gives it (the two can differ in the type of
      a cell).
    - [env_save p prs] is [prs.save(p)] and [env_dump p r] is the block
      [with open(p, 'w') as f: json.dump(r, f, ...)]: [None] when the
      whole write succeeds, [Some e] when it raises.  A write opens the
      file before it fills it: [env_created p] tells whether a failing
      write to [p] fails after the file was created, which leaves an
      empty or truncated file, or on opening it, which leaves nothing. *)
Record Env := {
  env_exists : Path -> bool;
  env_read_text : Path -> string + exn;
  env_read_excel : Path -> list (gmap string pyobj) + exn;
  env_records : Path -> list (gmap string pyobj);
  env_Presentation : string -> Presentation + exn;
  env_save : string -> Presentation -> option exn;
  env_dump : string -> Report -> option exn;
  env_created : string -> bool;
  env_isoformat : nat -> string;
  env_strftime : nat -> string;
  env_str : Data -> string
}.

(** The arguments of [__init__], once [output_dir] is resolved. *)
Record Config := {
  cv_path : Path;
  instructions_path : Path;
  template_path : Path;
  job_description_path : option Path;
  output_dir : Path
}.

(** The attributes a run mutates, the number of clock readings made so far
    and the files written so far.  [None] stands for the empty dictionary
    the attribute starts as. *)
Record State := {
  cv_data : option CVData;
  instructions : option Instructions;
  job_requirements : option JobRequirements;
  traceability_log : list TraceEntry;
  clock : nat;
  files : gmap string File
}.

(** The state [__init__] leaves. *)
Definition init : State :=
  {| cv_data := None; instructions := None; job_requirements := None;
     traceability_log := []; clock := 0; files := ∅ |}.

Definition with_cv_data (v : option CVData) (s : State) : State :=
  {| cv_data := v; instructions := instructions s;
     job_requirements := job_requirements s;
     traceability_log := traceability_log s; clock := clock s; files := files s |}.

Definition with_instructions (v : option Instructions) (s : State) : State :=
  {| cv_data := cv_data s; instructions := v;
     job_requirements := job_requirements s;
     traceability_log := traceability_log s; clock := clock s; files := files s |}.

Definition with_job_requirements (v : option JobRequirements) (s : State) : State :=
  {| cv_data := cv_data s; instructions := instructions s;
     job_requirements := v;
     traceability_log := traceability_log s; clock := clock s; files := files s |}.

Definition with_traceability_log (v : list TraceEntry) (s : State) : State :=
  {| cv_data := cv_data s; instructions := instructions s;
     job_requirements := job_requirements s;
     traceability_log := v; clock := clock s; files := files s |}.

Definition with_clock (v : nat) (s : State) : State :=
  {| cv_data := cv_data s; instructions := instructions s;
     job_requirements := job_requirements s;
     traceability_log := traceability_log s; clock := v; files := files s |}.

Definition with_files (v : gmap string File) (s : State) : State :=
  {| cv_data := cv_data s; instructions := instructions s;
     job_requirements := job_requirements s;
     traceability_log := traceability_log s; clock := clock s; files := v |}.

(** ** The monad of methods *)

Definition M (A : Type) : Type := State -> Result A * State.

Definition ret {A} (a : A) : M A := fun s => (Ok a, s).

Definition raise {A} (e : exn) : M A := fun s => (Raise e, s).

Definition bind {A B} (c : M A) (k : A -> M B) : M B :=
  fun s => match c s with
           | (Ok a, s') => k a s'
           | (Raise e, s') => (Raise e, s')
           end.

Notation "'let!' x ':=' c 'in' k" := (bind c (fun x => k))
  (at level 10, x name, c at level 100, k at level 200, only parsing).
Notation "'do!' c 'in' k" := (bind c (fun _ => k))
  (at level 10, c at level 100, k at level 200, only parsing).

Definition get : M State := fun s => (Ok s, s).

Definition modify (f : State -> State) : M unit := fun s => (Ok tt, f s).

(** A result, as a computation that leaves the state alone. *)
Definition lift {A} (r : Result A) : M A := fun s => (r, s).

(** The answer of a collaborator, as a computation. *)
Definition ask {A} (r : A + exn) : M A :=
  match r with inl a => ret a | inr e => raise e end.

(** [datetime.now()], formatted by [fmt]: one more reading of the clock. *)
Definition now (fmt : nat -> string) : M string :=
  fun s => (Ok (fmt (clock s)), with_clock (S (clock s)) s).

(** What a write to [path] that raises leaves on disk: an empty or
    truncated file when the file was created before the failure, nothing
    otherwise. *)
Definition failed_write (created : bool) (path : string) : M unit :=
  modify (fun s => if created
                   then with_files (<[path := PartialFile]> (files s)) s
                   else s).

(** ** The methods of [CVAutomation] *)

Section Methods.

Variable env : Env.
Variable cfg : Config.

(** [validate_inputs]: the checks in the order of the source; the first
    that fails returns [False]. *)
Definition validate_inputs : bool :=
  if negb (env_exists env (cv_path cfg)) then false
  else if negb (env_exists env (instructions_path cfg)) then false
  else if negb (bool_decide (PyStr.lower (suffix (instructions_path cfg))
                               ∈ [".xlsx"; ".xls"])) then false
  else if negb (env_exists env (template_path cfg)) then false
  else if negb (String.eqb (PyStr.lower (suffix (template_path cfg))) ".pptx") then false
  else match job_description_path cfg with
       | Some jd => if negb (env_exists env jd) then false else true
       | None => true
       end.

(** [_log_traceability]: the summary is [str(data)], cut to
    [max_length] characters and followed by three dots when longer. *)
Definition max_length : nat := 500.

Definition _log_traceability (step description : string) (data : Data) : M unit :=
  let data_str := env_str env data in
  let data_summary :=
    if (max_length <? String.length data_str)%nat
    then PyStr.slice_to max_length data_str ++ "..."
    else data_str in
  let! timestamp := now (env_isoformat env) in
  let entry := {| entry_timestamp := timestamp; entry_step := step;
                  entry_description := description;
                  entry_data_summary := data_summary |} in
  modify (fun s => with_traceability_log (traceability_log s ++ [entry]) s).

(** [_extract_cv_sections]. *)
Definition _extract_cv_sections (text : string) : gmap string string :=
  let sections : gmap string string :=
    <["certifications" := ""]> (<["skills" := ""]> (<["education" := ""]>
      (<["experience" := ""]> (<["summary" := ""]> ∅)))) in
  <["summary" := if (200 <? String.length text)%nat
                 then PyStr.slice_to 200 text else text]> sections.

(** [parse_cv]. *)
Definition parse_cv : M CVData :=
  let! parsed_date := now (env_isoformat env) in
  let file_extension := PyStr.lower (suffix (cv_path cfg)) in
  let! raw_text :=
    (if String.eqb file_extension ".txt" then ask (env_read_text env (cv_path cfg))
     else if bool_decide (file_extension ∈ [".pdf"; ".docx"])
          then ret ("CV from file: " ++ path_name (cv_path cfg))
          else ret ("Unsupported format: " ++ path_name (cv_path cfg))) in
  let cv_data := {| cv_file_path := path_str (cv_path cfg);
                    cv_file_name := path_name (cv_path cfg);
                    cv_parsed_date := parsed_date;
                    cv_sections := _extract_cv_sections raw_text;
                    cv_raw_text := raw_text |} in
  do! modify (with_cv_data (Some cv_data)) in
  do! _log_traceability "cv_parsing" "Parsed CV file" (DataCV cv_data) in
  ret cv_data.

(** [row.get(label, '')]. *)
Definition row_get (row : gmap string pyobj) (label : string) : pyobj :=
  default (PyStr "") (row !! label).

(** The body of the loop over the rows of the sheet: one rule is built
    and appended. *)
Definition append_rule (rules : list Rule) (row : gmap string pyobj) : list Rule :=
  let rule := {| rule_section := row_get row "Section";
                 rule_field := row_get row "Field";
                 rule_rule := row_get row "Rule";
                 rule_value := row_get row "Value" |} in
  rules ++ [rule].

(** [parse_instructions]; the handler logs and raises again, so an
    exception of the reader goes through unchanged. *)
Definition parse_instructions : M Instructions :=
  let! df := ask (env_read_excel env (instructions_path cfg)) in
  let! parsed_date := now (env_isoformat env) in
  let instructions := {| ins_file_path := path_str (instructions_path cfg);
                         ins_parsed_date := parsed_date;
                         ins_rules := fold_left append_rule df [];
                         ins_mappings := ∅;
                         ins_raw_data := env_records env (instructions_path cfg) |} in
  do! modify (with_instructions (Some instructions)) in
  do! _log_traceability "instruction_parsing" "Parsed instruction file"
                         (DataInstructions instructions) in
  ret instructions.

(** The comprehension of [parse_job_description]: the stripped lines
    that are non-empty and longer than ten characters. *)
Definition requirements_of (jd_text : string) : list string :=
  List.map PyStr.strip
    (List.filter
       (fun line => PyStr.truthy (PyStr.strip line)
                    && (10 <? String.length (PyStr.strip line))%nat)
       (PyStr.split PyStr.nl jd_text)).

(** [parse_job_description]. *)
Definition parse_job_description : M (option JobRequirements) :=
  match job_description_path cfg with
  | None => ret None
  | Some jd_path =>
      let! jd_text := ask (env_read_text env jd_path) in
      let! parsed_date := now (env_isoformat env) in
      let job_requirements := {| jd_file_path := path_str jd_path;
                                 jd_parsed_date := parsed_date;
                                 jd_raw_text := jd_text;
                                 jd_requirements := requirements_of jd_text;
                                 jd_key_skills := [] |} in
      do! modify (with_job_requirements (Some job_requirements)) in
      do! _log_traceability "jd_parsing" "Parsed job description"
                             (DataJD job_requirements) in
      ret (Some job_requirements)
  end.

End Methods.

(** ** The slide document handle *)

Module Pptx.

(** [Inches(n)], in English metric units. *)
Definition Inches (n : Z) : Z := (n * 914400)%Z.

Definition is_title (sh : Shape) : bool :=
  match sh with
  | Placeholder idx _ => (idx =? 0)%nat
  | TextBox _ _ _ _ _ _ => false
  end.

(** [shapes.title]: the first placeholder of index 0, or [None]. *)
Definition title (shs : list Shape) : option Shape := List.find is_title shs.

(** The shapes of the slide at position [i]. *)
Definition shapes_at (i : nat) (prs : Presentation) : list Shape :=
  match slides prs !! i with
  | Some sl => shapes sl
  | None => []
  end.

Definition with_shapes (f : list Shape -> list Shape) (sl : Slide) : Slide :=
  {| slide_layout := slide_layout sl; shapes := f (shapes sl) |}.

(** A change of the shapes of the slide at position [i], in place. *)
Definition update_shapes (i : nat) (f : list Shape -> list Shape)
           (prs : Presentation) : Presentation :=
  {| slide_layouts := slide_layouts prs;
     slides := alter (with_shapes f) i (slides prs) |}.

(** [prs.slides.add_slide(layout)]: a slide that inherits the
    placeholders of the layout is appended; the result refers to it by
    its position. *)
Definition add_slide (layout : SlideLayout) (prs : Presentation) : Presentation * nat :=
  ({| slide_layouts := slide_layouts prs;
      slides := (slides prs ++
                 [{| slide_layout := layout;
                     shapes := (fun idx => Placeholder idx "") <$> layout_placeholders layout |}])%list |},
   length (slides prs)).

(** [slide.shapes.add_textbox(left, top, width, height)]: an empty text
    box without word wrap is appended to the slide; the result refers to
    it by its position among the shapes. *)
Definition add_textbox (slide : nat) (left top width height : Z)
           (prs : Presentation) : Presentation * nat :=
  (update_shapes slide (fun shs => (shs ++ [TextBox left top width height "" false])%list) prs,
   length (shapes_at slide prs)).

Definition set_text_of (text : string) (sh : Shape) : Shape :=
  match sh with
  | Placeholder idx _ => Placeholder idx text
  | TextBox l t w h _ ww => TextBox l t w h text ww
  end.

Definition set_word_wrap_of (b : bool) (sh : Shape) : Shape :=
  match sh with
  | Placeholder idx text => Placeholder idx text
  | TextBox l t w h text _ => TextBox l t w h text b
  end.

(** [tf.text = text] for the text frame of the shape [txBox] of [slide]. *)
Definition set_text (slide txBox : nat) (text : string) (prs : Presentation) : Presentation :=
  update_shapes slide (alter (set_text_of text) txBox) prs.

(** [tf.word_wrap = b]. *)
Definition set_word_wrap (slide txBox : nat) (b : bool) (prs : Presentation) : Presentation :=
  update_shapes slide (alter (set_word_wrap_of b) txBox) prs.

End Pptx.

(** The index of the layout of a new slide: [min(6, len(prs.slide_layouts) - 1)]. *)
Definition blank_layout_index (prs : Presentation) : Z :=
  Z.min 6 (Z.of_nat (length (slide_layouts prs)) - 1).

(** [_populate_slides]: the presentation is changed in place; the result
    is the presentation after the call, or the exception raised before
    anything was changed. *)
Definition _populate_slides (cv_data : option CVData) (prs : Presentation) : Result Presentation :=
  match
    (if (length (slides prs) =? 0)%nat then
       match PyStr.getitem (slide_layouts prs) (blank_layout_index prs) with
       | Some blank_layout => Ok (Pptx.add_slide blank_layout prs)
       | None => Raise (IndexError "slide layout index out of range")
       end
     else Ok (prs, 0%nat))
  with
  | Raise e => Raise e
  | Ok (prs, slide) =>
      let prs :=
        match Pptx.title (Pptx.shapes_at slide prs) with
        | Some _ => prs
        | None =>
            let '(prs, txBox) :=
              Pptx.add_textbox slide (Pptx.Inches 1) (Pptx.Inches 1)
                               (Pptx.Inches 8) (Pptx.Inches 1) prs in
            Pptx.set_text slide txBox "CV Summary" prs
        end in
      let '(prs, txBox) :=
        Pptx.add_textbox slide (Pptx.Inches 1) (Pptx.Inches 2)
                         (Pptx.Inches 8) (Pptx.Inches 4) prs in
      let prs := Pptx.set_word_wrap slide txBox true prs in
      let prs :=
        match cv_data with
        | Some d =>
            let summary := default "No summary available" (cv_sections d !! "summary") in
            Pptx.set_text slide txBox ("Summary:" ++ PyStr.nl_str ++ summary) prs
        | None => prs
        end in
      Ok prs
  end.

(** The value [run] returns. *)
Record Results := { powerpoint : Path; traceability_report : Path }.

Section Outputs.

Variable env : Env.
Variable cfg : Config.

(** [generate_powerpoint]; the handler logs and raises again. *)
Definition generate_powerpoint (output_path : option Path) : M Path :=
  let! output_path :=
    match output_path with
    | Some p => ret p
    | None =>
        let! timestamp := now (env_strftime env) in
        ret (joinpath (output_dir cfg) ("CV_Presentation_" ++ timestamp ++ ".pptx"))
    end in
  let! prs := ask (env_Presentation env (path_str (template_path cfg))) in
  let! self := get in
  let! prs := lift (_populate_slides (cv_data self) prs) in
  do! (match env_save env (path_str output_path) prs with
       | Some e =>
           do! failed_write (env_created env (path_str output_path))
                            (path_str output_path) in
           raise e
       | None => modify (fun s => with_files (<[path_str output_path := PptxFile prs]> (files s)) s)
       end) in
  do! _log_traceability env "ppt_generation" "Generated PowerPoint"
                        (DataOutput (path_str output_path)) in
  ret output_path.

(** [generate_traceability_report]. *)
Definition generate_traceability_report (output_path : option Path) : M Path :=
  let! output_path :=
    match output_path with
    | Some p => ret p
    | None =>
        let! timestamp := now (env_strftime env) in
        ret (joinpath (output_dir cfg) ("Traceability_Report_" ++ timestamp ++ ".json"))
    end in
  let! generated_at := now (env_isoformat env) in
  let! s := get in
  let report :=
    {| rep_generated_at := generated_at;
       rep_cv := path_str (cv_path cfg);
       rep_instructions := path_str (instructions_path cfg);
       rep_template := path_str (template_path cfg);
       rep_job_description := path_str <$> job_description_path cfg;
       rep_processing_log := traceability_log s;
       rep_total_steps := length (traceability_log s);
       rep_cv_sections_extracted :=
         match cv_data s with Some d => size (cv_sections d) | None => 0 end;
       rep_instruction_rules :=
         match instructions s with Some i => length (ins_rules i) | None => 0 end |} in
  do! (match env_dump env (path_str output_path) report with
       | Some e =>
           do! failed_write (env_created env (path_str output_path))
                            (path_str output_path) in
           raise e
       | None => modify (fun s => with_files (<[path_str output_path := ReportFile report]> (files s)) s)
       end) in
  ret output_path.

(** [run]. *)
Definition run : M Results :=
  if negb (validate_inputs env cfg) then raise (ValueError "Input validation failed")
  else
    do! parse_cv env cfg in
    do! parse_instructions env cfg in
    do! parse_job_description env cfg in
    let! ppt_path := generate_powerpoint None in
    let! report_path := generate_traceability_report None in
    ret {| powerpoint := ppt_path; traceability_report := report_path |}.

End Outputs.

(** ** Proof support *)

(** Unfolds the monad under a method. *)
Ltac unfold_monad :=
  unfold _log_traceability, failed_write;
  unfold bind, now, ask, lift, get, modify, ret, raise.

(** ** Specification-side definitions *)

(** The requirements, in the words of the specification: every line,
    trimmed, kept when its trimmed length exceeds 10. *)
Definition trimmed_lines_longer_than_10 (jd_text : string) : list string :=
  List.filter (fun t => (10 <? String.length t)%nat)
              (List.map PyStr.strip (PyStr.split PyStr.nl jd_text)).

(** The rule of one row. *)
Definition rule_of_row (row : gmap string pyobj) : Rule :=
  {| rule_section := row_get row "Section";
     rule_field := row_get row "Field";
     rule_rule := row_get row "Rule";
     rule_value := row_get row "Value" |}.

(** The title region the engine adds to a slide without a title. *)
Definition title_box : Shape :=
  TextBox (Pptx.Inches 1) (Pptx.Inches 1) (Pptx.Inches 8) (Pptx.Inches 1) "CV Summary" false.

(** The text of the body region: the summary under its heading, the
    fallback when [sections] has no summary, nothing when no CV was
    parsed. *)
Definition body_text (cv_data : option CVData) : string :=
  match cv_data with
  | Some d => "Summary:" ++ PyStr.nl_str
              ++ default "No summary available" (cv_sections d !! "summary")
  | None => ""
  end.

Definition body_box (cv_data : option CVData) : Shape :=
  TextBox (Pptx.Inches 1) (Pptx.Inches 2) (Pptx.Inches 8) (Pptx.Inches 4)
          (body_text cv_data) true.

(** The shapes the engine adds to a slide whose shapes are [shs]. *)
Definition added_shapes (cv_data : option CVData) (shs : list Shape) : list Shape :=
  (match Pptx.title shs with
   | Some _ => []
   | None => [title_box]
   end ++ [body_box cv_data])%list.

(** The slide a layout gives rise to. *)
Definition fresh_shapes (layout : SlideLayout) : list Shape :=
  (fun idx => Placeholder idx "") <$> layout_placeholders layout.

(** ** Relations between the states of a run *)

(** The longest summary an entry can hold: [max_length] characters and
    the three dots. *)
Definition summary_bounded (e : TraceEntry) : Prop :=
  String.length (entry_data_summary e) <= 503.

(** [s'] has the log of [s] followed by entries whose steps are [tags]. *)
Definition logged (tags : list string) (s s' : State) : Prop :=
  exists es : list TraceEntry,
    traceability_log s' = (traceability_log s ++ es)%list
    /\ entry_step <$> es = tags
    /\ Forall summary_bounded es.

(** The attributes [cv_data], [instructions] and [job_requirements] and
    the files are the same in [s] and [s']. *)
Definition same_data (s s' : State) : Prop :=
  cv_data s' = cv_data s
  /\ instructions s' = instructions s
  /\ job_requirements s' = job_requirements s
  /\ files s' = files s.

(** The steps the three parsers log when all of them return. *)
Definition parse_tags (cfg : Config) : list string :=
  (["cv_parsing"; "instruction_parsing"]
   ++ match job_description_path cfg with
      | Some _ => ["jd_parsing"]
      | None => []
      end)%list.

(** The text [parse_cv] works on: the content of a [.txt] file, a
    placeholder made from the file name otherwise. *)
Definition cv_text_of (env : Env) (cfg : Config) : string + exn :=
  if String.eqb (PyStr.lower (suffix (cv_path cfg))) ".txt"
  then env_read_text env (cv_path cfg)
  else if bool_decide (PyStr.lower (suffix (cv_path cfg)) ∈ [".pdf"; ".docx"])
       then inl ("CV from file: " ++ path_name (cv_path cfg))
       else inl ("Unsupported format: " ++ path_name (cv_path cfg)).

(** The paths [generate_powerpoint] and [generate_traceability_report]
    choose when they are given none, in the state [s]. *)
Definition powerpoint_path (env : Env) (cfg : Config) (s : State) : Path :=
  joinpath (output_dir cfg) ("CV_Presentation_" ++ env_strftime env (clock s) ++ ".pptx").

Definition report_path (env : Env) (cfg : Config) (s : State) : Path :=
  joinpath (output_dir cfg) ("Traceability_Report_" ++ env_strftime env (clock s) ++ ".json").

(** Whether the character [c] occurs in [s]. *)
Fixpoint occurs (c : ascii) (s : string) : bool :=
  match s with
  | EmptyString => false
  | String c' r => Ascii.eqb c' c || occurs c r
  end.

(** The first and the last character of a string. *)
Definition first_char (s : string) : option ascii :=
  match s with
  | EmptyString => None
  | String c _ => Some c
  end.

Fixpoint last_char (s : string) : option ascii :=
  match s with
  | EmptyString => None
  | String c EmptyString => Some c
  | String _ r => last_char r
  end.

(** ** Concrete environments

    The collaborators of a run in which every file exists, every reader
    answers and every write succeeds. *)

Module Scenario.

Definition mk_path (dir name : string) : Path :=
  {| path_str := dir ++ "/" ++ name; path_name := name |}.

Definition quiet_env (cv_text : string) (rows : list (gmap string pyobj))
           (template : Presentation) (str : Data -> string) : Env :=
  {| env_exists := fun _ => true;
     env_read_text := fun _ => inl cv_text;
     env_read_excel := fun _ => inl rows;
     env_records := fun _ => rows;
     env_Presentation := fun _ => inl template;
     env_save := fun _ _ => None;
     env_dump := fun _ _ => None;
     env_created := fun _ => true;
     env_isoformat := fun _ => "2024-05-01T09:30:00";
     env_strftime := fun _ => "20240501_093000";
     env_str := str |}.

Definition cfg_of (cv instructions : string) (jd : option string) : Config :=
  {| cv_path := mk_path "in" cv;
     instructions_path := mk_path "in" instructions;
     template_path := mk_path "in" "template.pptx";
     job_description_path := mk_path "in" <$> jd;
     output_dir := {| path_str := "out"; path_name := "out" |} |}.

Definition blank_layout : SlideLayout :=
  {| layout_name := "Blank"; layout_placeholders := [] |}.

Definition title_layout : SlideLayout :=
  {| layout_name := "Title Only"; layout_placeholders := [0] |}.

(** The row [{Section: summary, Field: body, Rule: copy, Value: ""}]. *)
Definition copy_row : gmap string pyobj :=
  <["Section" := PyStr "summary"]> (<["Field" := PyStr "body"]>
    (<["Rule" := PyStr "copy"]> (<["Value" := PyStr ""]> ∅))).

(** A row of a sheet that has no column [Value]. *)
Definition row_without_value : gmap string pyobj :=
  <["Section" := PyStr "skills"]> (<["Field" := PyStr "body"]>
    (<["Rule" := PyStr "copy"]> ∅)).

Definition empty_template : Presentation :=
  {| slide_layouts := replicate 6 title_layout ++ [blank_layout]; slides := [] |}.

(** A template without slides whose seven layouts all carry a title. *)
Definition titled_template : Presentation :=
  {| slide_layouts := replicate 7 title_layout; slides := [] |}.

(** A template without slides and without layouts. *)
Definition no_layout_template : Presentation :=
  {| slide_layouts := []; slides := [] |}.

(** A deck of two slides; the first has a title. *)
Definition two_slide_deck : Presentation :=
  {| slide_layouts := [title_layout; blank_layout];
     slides := [{| slide_layout := title_layout; shapes := [Placeholder 0 "Profile"] |};
                {| slide_layout := blank_layout; shapes := [] |}] |}.

(** The document [parse_cv] builds from an empty text file. *)
Definition empty_cv : CVData :=
  {| cv_file_path := "in/resume.txt"; cv_file_name := "resume.txt";
     cv_parsed_date := "2024-05-01T09:30:00";
     cv_sections := _extract_cv_sections "";
     cv_raw_text := "" |}.

(** A document whose sections have no summary. *)
Definition cv_without_summary : CVData :=
  {| cv_file_path := "in/resume.txt"; cv_file_name := "resume.txt";
     cv_parsed_date := "2024-05-01T09:30:00";
     cv_sections := <["skills" := "Rocq"]> ∅;
     cv_raw_text := "" |}.

(** An environment in which [str(data)] has 501 characters. *)
Definition long_str_env : Env :=
  quiet_env "" [] empty_template (fun _ => PyStr.repeat_char "a" 501).


(** The end-to-end scenario: the text of [resume.txt], one rule, a
    template without slides whose seventh layout is blank, no job
    description. *)
Definition e2e_env : Env :=
  quiet_env "Experienced engineer..." [copy_row] empty_template (fun _ => "").

Definition e2e_cfg : Config := cfg_of "resume.txt" "rules.xlsx" None.

(** The same with a template whose seven layouts all carry a title. *)
Definition e2e_titled_env : Env :=
  quiet_env "Experienced engineer..." [copy_row] titled_template (fun _ => "").

(** An environment in which no input file can be read. *)
Definition unreadable_env : Env :=
  {| env_exists := fun _ => true;
     env_read_text := fun _ => inr (OSError "Permission denied");
     env_read_excel := fun _ => inr (OSError "Permission denied");
     env_records := fun _ => [];
     env_Presentation := fun _ => inr (OSError "Permission denied");
     env_save := fun _ _ => None;
     env_dump := fun _ _ => None;
     env_created := fun _ => false;
     env_isoformat := fun _ => "2024-05-01T09:30:00";
     env_strftime := fun _ => "20240501_093000";
     env_str := fun _ => "" |}.

(** The scenario with a job description. *)
Definition e2e_jd_cfg : Config := cfg_of "resume.txt" "rules.xlsx" (Some "jd.txt").

(** A CV in a format that is not parsed. *)
Definition pdf_cfg : Config := cfg_of "resume.pdf" "rules.xlsx" None.

Definition jd_text : string :=
  "Must have 5 years Python" ++ PyStr.nl_str ++ PyStr.nl_str ++ "Go" ++ PyStr.nl_str
  ++ "Excellent communication skills".

End Scenario.

(** ** Facts about Python strings *)

Section StringFacts.

Example split_ex : PyStr.split PyStr.nl ("ab" ++ PyStr.nl_str ++ PyStr.nl_str ++ "c") = ["ab"; ""; "c"].
Proof. reflexivity. Qed.

Example strip_ex : PyStr.strip ("  a b " ++ PyStr.nl_str) = "a b".
Proof. reflexivity. Qed.

Example lower_ex : PyStr.lower ".XlSx" = ".xlsx".
Proof. reflexivity. Qed.

Example endswith_ex : PyStr.endswith "abc..." "..." = true /\ PyStr.endswith ".." "..." = false.
Proof. split; reflexivity. Qed.

Example joinpath_ex :
  path_str (joinpath {| path_str := "out"; path_name := "out" |} "a.pptx") = "out/a.pptx"
  /\ path_str (joinpath {| path_str := "."; path_name := "" |} "a.pptx") = "a.pptx"
  /\ path_str (joinpath {| path_str := "/"; path_name := "" |} "a.pptx") = "/a.pptx".
Proof. repeat split. Qed.

Lemma string_length_app (s t : string) :
  String.length (s ++ t) = String.length s + String.length t.
Proof. induction s as [|c s IH]; simpl; [reflexivity | now rewrite IH]. Qed.

Lemma length_slice_to (n : nat) (s : string) :
  String.length (PyStr.slice_to n s) = Nat.min n (String.length s).
Proof.
  unfold PyStr.slice_to. revert s.
  induction n as [|n IH]; intros [|c s]; simpl; try reflexivity.
  now rewrite IH.
Qed.

Lemma slice_to_all (n : nat) (s : string) :
  String.length s <= n -> PyStr.slice_to n s = s.
Proof.
  unfold PyStr.slice_to. revert s.
  induction n as [|n IH]; intros [|c s] Hlen; simpl in *; try reflexivity; try lia.
  f_equal. apply IH. lia.
Qed.

Lemma slice_to_prefix (n : nat) (s : string) :
  String.prefix (PyStr.slice_to n s) s = true.
Proof.
  unfold PyStr.slice_to. revert s.
  induction n as [|n IH]; intros [|c s]; simpl; try reflexivity.
  destruct (ascii_dec c c) as [_|Hne]; [apply IH | now destruct Hne].
Qed.

Lemma substring_whole (t : string) : substring 0 (String.length t) t = t.
Proof. induction t as [|c t IH]; simpl; [reflexivity | now rewrite IH]. Qed.

Lemma substring_app_skip (a t : string) :
  substring (String.length a) (String.length t) (a ++ t) = t.
Proof. induction a as [|c a IH]; simpl; [apply substring_whole | exact IH]. Qed.

Lemma endswith_app (a t : string) : PyStr.endswith (a ++ t) t = true.
Proof.
  unfold PyStr.endswith. rewrite string_length_app.
  replace (String.length a + String.length t - String.length t) with (String.length a) by lia.
  rewrite substring_app_skip, String.eqb_refl. simpl.
  apply Nat.leb_le. lia.
Qed.

Lemma length_repeat_char (c : ascii) (n : nat) :
  String.length (PyStr.repeat_char c n) = n.
Proof. induction n as [|n IH]; simpl; [reflexivity | now rewrite IH]. Qed.

(** A line has no separator in it, and joining the lines gives the text
    back: [split] cuts at the separators and nowhere else. *)
Lemma split_nonempty (sep : ascii) (s : string) : PyStr.split sep s <> [].
Proof.
  induction s as [|c s IH]; simpl; [discriminate|].
  destruct (Ascii.eqb c sep); [discriminate|].
  destruct (PyStr.split sep s); [contradiction | discriminate].
Qed.

Lemma join_split (sep : ascii) (s : string) :
  PyStr.join (String sep "") (PyStr.split sep s) = s.
Proof.
  induction s as [|c s IH]; simpl; [reflexivity|].
  destruct (Ascii.eqb_spec c sep) as [->|Hne].
  - pose proof (split_nonempty sep s) as Hne.
    destruct (PyStr.split sep s) as [|h t]; [contradiction|].
    simpl in *. now rewrite IH.
  - pose proof (split_nonempty sep s) as Hnil.
    destruct (PyStr.split sep s) as [|h t]; [contradiction|].
    destruct t as [|h' t]; simpl in *; now rewrite <- IH.
Qed.

(** What [strip] returns starts with no blank character. *)
Lemma lstrip_head (s : string) :
  match PyStr.lstrip s with
  | EmptyString => True
  | String c _ => PyStr.isspace c = false
  end.
Proof.
  induction s as [|c s IH]; simpl; [exact I|].
  destruct (PyStr.isspace c) eqn:E; [exact IH | exact E].
Qed.

Lemma rstrip_head (s : string) :
  match s with
  | EmptyString => True
  | String c _ => PyStr.isspace c = false ->
                  match PyStr.rstrip s with
                  | EmptyString => False
                  | String c' _ => c' = c
                  end
  end.
Proof.
  destruct s as [|c s]; [exact I|]. simpl. intros E.
  destruct (PyStr.rstrip s); [now rewrite E | reflexivity].
Qed.

Lemma strip_head (s : string) :
  match PyStr.strip s with
  | EmptyString => True
  | String c _ => PyStr.isspace c = false
  end.
Proof.
  unfold PyStr.strip.
  pose proof (lstrip_head s) as Hl. pose proof (rstrip_head (PyStr.lstrip s)) as Hr.
  destruct (PyStr.lstrip s) as [|c r]; [exact I|].
  specialize (Hr Hl). destruct (PyStr.rstrip (String c r)); [exact I | now subst].
Qed.

End StringFacts.

(** ** The traceability log *)

Section TraceLog.

Variable env : Env.

(** What one call of [_log_traceability] does to the state. *)
Lemma log_traceability_run (step description : string) (data : Data) (s : State) :
  _log_traceability env step description data s
  = (Ok tt,
     with_traceability_log
       (traceability_log s ++
        [{| entry_timestamp := env_isoformat env (clock s);
            entry_step := step;
            entry_description := description;
            entry_data_summary :=
              if (500 <? String.length (env_str env data))%nat
              then PyStr.slice_to 500 (env_str env data) ++ "..."
              else env_str env data |}])
       (with_clock (S (clock s)) s)).
Proof. reflexivity. Qed.

End TraceLog.

(** C3, as amended: [_log_traceability] appends one entry; when [str(data)]
    has more than 500 characters its summary is the first 500 characters
    followed by the three dots, so it has exactly 500 + 3 characters and
    ends with the dots; when [str(data)] has at most 500 characters the
    summary is [str(data)] itself. *)
Theorem log_traceability_truncation (env : Env) (step description : string)
        (data : Data) (s : State) :
  exists e : TraceEntry,
    _log_traceability env step description data s
    = (Ok tt, with_traceability_log (traceability_log s ++ [e]) (with_clock (S (clock s)) s))
    /\ entry_step e = step /\ entry_description e = description
    /\ (500 < String.length (env_str env data) ->
        entry_data_summary e = PyStr.slice_to 500 (env_str env data) ++ "..."
        /\ String.length (entry_data_summary e) = 500 + String.length "..."
        /\ PyStr.endswith (entry_data_summary e) "..." = true)
    /\ (String.length (env_str env data) <= 500 ->
        entry_data_summary e = env_str env data).
Proof.
  eexists. split; [apply log_traceability_run|]. simpl.
  split; [reflexivity|]. split; [reflexivity|]. split.
  - intros Hlong. apply Nat.ltb_lt in Hlong. rewrite Hlong.
    apply Nat.ltb_lt in Hlong.
    split; [reflexivity|]. split.
    + rewrite string_length_app, length_slice_to, Nat.min_l by lia. reflexivity.
    + apply endswith_app.
  - intros Hshort. apply Nat.ltb_ge in Hshort. now rewrite Hshort.
Qed.

(** C3, as stated, fails: a summary cut from 501 characters has 503
    characters, not 501 + 3. *)
Lemma log_traceability_truncation_501_fails :
  500 < String.length (env_str Scenario.long_str_env (DataOutput "out/x.pptx"))
  /\ exists e : TraceEntry,
       traceability_log
         (snd (_log_traceability Scenario.long_str_env "ppt_generation"
                                 "Generated PowerPoint" (DataOutput "out/x.pptx") init))
       = [e]
       /\ String.length (entry_data_summary e) <> 501 + String.length "...".
Proof.
  split.
  - change (500 < String.length (PyStr.repeat_char "a" 501)).
    rewrite length_repeat_char. lia.
  - eexists. split; [reflexivity|]. vm_compute. discriminate.
Qed.

(** ** The content extractor *)

Section ContentExtractor.

Lemma extract_cv_sections_summary (text : string) :
  _extract_cv_sections text !! "summary" = Some (PyStr.slice_to 200 text).
Proof.
  unfold _extract_cv_sections. rewrite lookup_insert_eq.
  destruct (200 <? String.length text)%nat eqn:E; [reflexivity|].
  apply Nat.ltb_ge in E. now rewrite slice_to_all.
Qed.

Lemma extract_cv_sections_other (text k : string) :
  k ∈ ["experience"; "education"; "skills"; "certifications"] ->
  _extract_cv_sections text !! k = Some "".
Proof.
  intros Hk. unfold _extract_cv_sections.
  repeat (apply elem_of_cons in Hk as [->|Hk]); [reflexivity..|].
  now apply elem_of_nil in Hk.
Qed.

Lemma extract_cv_sections_dom (text : string) :
  dom (_extract_cv_sections text)
  = ({["summary"; "experience"; "education"; "skills"; "certifications"]} : gset string).
Proof.
  unfold _extract_cv_sections. rewrite !dom_insert_L, dom_empty_L. set_solver.
Qed.

Lemma extract_cv_sections_size (text : string) :
  size (_extract_cv_sections text) = 5.
Proof.
  rewrite <- size_dom, extract_cv_sections_dom. reflexivity.
Qed.

(** What [parse_cv] does on a [.txt] file that can be read. *)
Lemma parse_cv_txt_run (env : Env) (cfg : Config) (s : State) (text : string) :
  PyStr.lower (suffix (cv_path cfg)) = ".txt" ->
  env_read_text env (cv_path cfg) = inl text ->
  let d := {| cv_file_path := path_str (cv_path cfg);
              cv_file_name := path_name (cv_path cfg);
              cv_parsed_date := env_isoformat env (clock s);
              cv_sections := _extract_cv_sections text;
              cv_raw_text := text |} in
  exists e : TraceEntry,
    parse_cv env cfg s
    = (Ok d, {| cv_data := Some d; instructions := instructions s;
                job_requirements := job_requirements s;
                traceability_log := traceability_log s ++ [e];
                clock := S (S (clock s)); files := files s |})
    /\ entry_step e = "cv_parsing".
Proof.
  intros Hext Hread d. eexists.
  unfold parse_cv, bind, now. rewrite Hext, Hread. split; reflexivity.
Qed.

End ContentExtractor.

(** C5: for a plain-text CV that can be read, [parse_cv] returns and
    stores a document whose raw text is the input, whose summary is the
    first 200 characters of the input (the whole input when it has at most
    200 characters), and whose sections are exactly the five recognised
    ones, the other four empty. *)
Theorem parse_cv_plain_text (env : Env) (cfg : Config) (s : State) (text : string) :
  PyStr.lower (suffix (cv_path cfg)) = ".txt" ->
  env_read_text env (cv_path cfg) = inl text ->
  exists (d : CVData) (s' : State),
    parse_cv env cfg s = (Ok d, s')
    /\ cv_data s' = Some d
    /\ cv_raw_text d = text
    /\ cv_sections d !! "summary" = Some (substring 0 200 text)
    /\ (String.length text <= 200 -> cv_sections d !! "summary" = Some text)
    /\ dom (cv_sections d)
       = ({["summary"; "experience"; "education"; "skills"; "certifications"]} : gset string)
    /\ (forall k : string,
          k ∈ ["experience"; "education"; "skills"; "certifications"] ->
          cv_sections d !! k = Some "").
Proof.
  intros Hext Hread.
  destruct (parse_cv_txt_run env cfg s text Hext Hread) as (e & Hrun & _).
  eexists _, _. split; [exact Hrun|]. simpl.
  split; [reflexivity|]. split; [reflexivity|].
  split; [apply extract_cv_sections_summary|].
  split.
  - intros Hlen. rewrite extract_cv_sections_summary. now rewrite slice_to_all.
  - split; [apply extract_cv_sections_dom | apply extract_cv_sections_other].
Qed.

(** The theorem of C5 at a text of 23 characters. *)
Lemma parse_cv_plain_text_witness :
  exists (d : CVData) (s' : State),
    parse_cv (Scenario.quiet_env "Experienced engineer..." [] Scenario.empty_template
                                 (fun _ => ""))
             (Scenario.cfg_of "resume.txt" "rules.xlsx" None) init = (Ok d, s')
    /\ cv_data s' = Some d
    /\ cv_raw_text d = "Experienced engineer..."
    /\ cv_sections d !! "summary" = Some (substring 0 200 "Experienced engineer...")
    /\ (String.length "Experienced engineer..." <= 200 ->
        cv_sections d !! "summary" = Some "Experienced engineer...")
    /\ dom (cv_sections d)
       = ({["summary"; "experience"; "education"; "skills"; "certifications"]} : gset string)
    /\ (forall k : string,
          k ∈ ["experience"; "education"; "skills"; "certifications"] ->
          cv_sections d !! k = Some "").
Proof.
  apply (parse_cv_plain_text
           (Scenario.quiet_env "Experienced engineer..." [] Scenario.empty_template
                               (fun _ => ""))
           (Scenario.cfg_of "resume.txt" "rules.xlsx" None) init
           "Experienced engineer...");
    reflexivity.
Defined.

(** ** The requirement extractor *)

Section RequirementExtractor.

Lemma map_filter_comm {A B : Type} (f : A -> B) (p : B -> bool) (l : list A) :
  List.map f (List.filter (fun x => p (f x)) l) = List.filter p (List.map f l).
Proof.
  induction l as [|x l IH]; simpl; [reflexivity|].
  destruct (p (f x)); simpl; now rewrite IH.
Qed.

Lemma filter_ext_bool {A : Type} (p q : A -> bool) (l : list A) :
  (forall x, p x = q x) -> List.filter p l = List.filter q l.
Proof.
  intros Hpq. induction l as [|x l IH]; simpl; [reflexivity|].
  now rewrite Hpq, IH.
Qed.

(** The test for a non-empty line adds nothing to the test on the
    length. *)
Lemma truthy_and_long (t : string) :
  PyStr.truthy t && (10 <? String.length t)%nat = (10 <? String.length t)%nat.
Proof. destruct t; reflexivity. Qed.

Lemma requirements_of_spec (jd_text : string) :
  requirements_of jd_text = trimmed_lines_longer_than_10 jd_text.
Proof.
  unfold requirements_of, trimmed_lines_longer_than_10.
  rewrite <- map_filter_comm. f_equal.
  apply filter_ext_bool. intros line. apply truthy_and_long.
Qed.

Lemma requirements_of_elem (jd_text r : string) :
  r ∈ requirements_of jd_text
  <-> exists line : string,
        line ∈ PyStr.split PyStr.nl jd_text
        /\ r = PyStr.strip line /\ 10 < String.length r.
Proof.
  rewrite requirements_of_spec. unfold trimmed_lines_longer_than_10.
  rewrite list_elem_of_In, filter_In, in_map_iff, Nat.ltb_lt. split.
  - intros [(line & <- & Hin) Hlen]. exists line.
    now rewrite list_elem_of_In.
  - intros (line & Hin & -> & Hlen). split; [|exact Hlen].
    exists line. now rewrite <- list_elem_of_In.
Qed.

Example requirements_of_example :
  requirements_of Scenario.jd_text
  = ["Must have 5 years Python"; "Excellent communication skills"].
Proof. reflexivity. Qed.

End RequirementExtractor.

(** C6: when a job description is supplied and can be read,
    [parse_job_description] returns and stores requirements that are
    exactly the trimmed lines of the text whose trimmed length exceeds 10,
    in the order of the lines; a line that is blank or whose trimmed
    length is at most 10 gives no entry. *)
Theorem parse_job_description_requirements (env : Env) (cfg : Config) (s : State)
        (jd_path : Path) (jd_text : string) :
  job_description_path cfg = Some jd_path ->
  env_read_text env jd_path = inl jd_text ->
  exists (j : JobRequirements) (s' : State),
    parse_job_description env cfg s = (Ok (Some j), s')
    /\ job_requirements s' = Some j
    /\ jd_requirements j = trimmed_lines_longer_than_10 jd_text
    /\ (forall r : string,
          r ∈ jd_requirements j
          <-> exists line : string,
                line ∈ PyStr.split PyStr.nl jd_text
                /\ r = PyStr.strip line /\ 10 < String.length r)
    /\ (forall line : string,
          String.length (PyStr.strip line) <= 10 ->
          PyStr.strip line ∉ jd_requirements j).
Proof.
  intros Hpath Hread. eexists _, _.
  unfold parse_job_description, bind, now. rewrite Hpath. simpl. rewrite Hread.
  split; [reflexivity|]. simpl.
  split; [reflexivity|].
  split; [apply requirements_of_spec|].
  split; [apply requirements_of_elem|].
  intros line Hshort Hin. apply requirements_of_elem in Hin as (l' & _ & Heq & Hlen).
  lia.
Qed.

(** The theorem of C6 at the example of the specification. *)
Lemma parse_job_description_requirements_witness :
  exists (j : JobRequirements) (s' : State),
    parse_job_description
      (Scenario.quiet_env Scenario.jd_text [] Scenario.empty_template (fun _ => ""))
      (Scenario.cfg_of "resume.txt" "rules.xlsx" (Some "jd.txt")) init
    = (Ok (Some j), s')
    /\ jd_requirements j = ["Must have 5 years Python"; "Excellent communication skills"].
Proof.
  destruct (parse_job_description_requirements
              (Scenario.quiet_env Scenario.jd_text [] Scenario.empty_template (fun _ => ""))
              (Scenario.cfg_of "resume.txt" "rules.xlsx" (Some "jd.txt")) init
              (Scenario.mk_path "in" "jd.txt") Scenario.jd_text
              eq_refl eq_refl)
    as (j & s' & Hrun & _ & Hreq & _).
  exists j, s'. split; [exact Hrun|]. rewrite Hreq. reflexivity.
Defined.

(** ** The rule table parser *)

Section RuleTable.

Lemma fold_append_rule (rows : list (gmap string pyobj)) (acc : list Rule) :
  fold_left append_rule rows acc = (acc ++ List.map rule_of_row rows)%list.
Proof.
  revert acc. induction rows as [|row rows IH]; intros acc; simpl.
  - now rewrite app_nil_r.
  - rewrite IH. unfold append_rule. now rewrite <- app_assoc.
Qed.

Lemma rule_of_row_no_value (row : gmap string pyobj) :
  row !! "Value" = None -> rule_value (rule_of_row row) = PyStr "".
Proof. intros Hnone. simpl. unfold row_get. now rewrite Hnone. Qed.

End RuleTable.

(** C7: when the sheet can be read and has the rows [rows],
    [parse_instructions] returns and stores as many rules as there are
    rows, the i-th rule built from the i-th row; the value of a rule whose
    row has no column [Value] is the empty string. *)
Theorem parse_instructions_rules (env : Env) (cfg : Config) (s : State)
        (rows : list (gmap string pyobj)) :
  env_read_excel env (instructions_path cfg) = inl rows ->
  exists (ins : Instructions) (s' : State),
    parse_instructions env cfg s = (Ok ins, s')
    /\ instructions s' = Some ins
    /\ length (ins_rules ins) = length rows
    /\ ins_rules ins = List.map rule_of_row rows
    /\ (forall (i : nat) (row : gmap string pyobj),
          rows !! i = Some row ->
          exists r : Rule,
            ins_rules ins !! i = Some r
            /\ r = rule_of_row row
            /\ (row !! "Value" = None -> rule_value r = PyStr "")).
Proof.
  intros Hread. eexists _, _.
  unfold parse_instructions, bind, now. rewrite Hread.
  split; [reflexivity|]. simpl.
  rewrite fold_append_rule. simpl.
  split; [reflexivity|].
  split; [apply length_map|].
  split; [reflexivity|].
  intros i row Hrow. exists (rule_of_row row).
  split; [|split; [reflexivity | apply rule_of_row_no_value]].
  change (List.map rule_of_row rows) with (rule_of_row <$> rows).
  now rewrite list_lookup_fmap, Hrow.
Qed.

(** The theorem of C7 at a sheet of two rows, the second without the
    column [Value]. *)
Lemma parse_instructions_rules_witness :
  exists (ins : Instructions) (s' : State),
    parse_instructions
      (Scenario.quiet_env "" [Scenario.copy_row; Scenario.row_without_value]
                          Scenario.empty_template (fun _ => ""))
      (Scenario.cfg_of "resume.txt" "rules.xlsx" None) init
    = (Ok ins, s')
    /\ length (ins_rules ins) = 2
    /\ exists r : Rule, ins_rules ins !! 1 = Some r /\ rule_value r = PyStr "".
Proof.
  destruct (parse_instructions_rules
              (Scenario.quiet_env "" [Scenario.copy_row; Scenario.row_without_value]
                                  Scenario.empty_template (fun _ => ""))
              (Scenario.cfg_of "resume.txt" "rules.xlsx" None) init
              [Scenario.copy_row; Scenario.row_without_value] eq_refl)
    as (ins & s' & Hrun & _ & Hlen & _ & Hrows).
  exists ins, s'. split; [exact Hrun|]. split; [exact Hlen|].
  destruct (Hrows 1 Scenario.row_without_value eq_refl) as (r & Hr & _ & Hval).
  exists r. split; [exact Hr|]. apply Hval. reflexivity.
Defined.

(** ** The slide population engine *)

Section PopulationEngine.

Variable cv : option CVData.

Lemma alter_last {A : Type} (f : A -> A) (l : list A) (x : A) :
  alter f (length l) (l ++ [x])%list = (l ++ [f x])%list.
Proof.
  rewrite alter_app_r_alt by lia. now rewrite Nat.sub_diag.
Qed.

Lemma shapes_at_first (layouts : list SlideLayout) (sl : Slide) (rest : list Slide) :
  Pptx.shapes_at 0 {| slide_layouts := layouts; slides := sl :: rest |} = shapes sl.
Proof. reflexivity. Qed.

Lemma add_textbox_first (layouts : list SlideLayout) (sl : Slide) (rest : list Slide)
      (l t w h : Z) :
  Pptx.add_textbox 0 l t w h {| slide_layouts := layouts; slides := sl :: rest |}
  = ({| slide_layouts := layouts;
        slides := {| slide_layout := slide_layout sl;
                     shapes := (shapes sl ++ [TextBox l t w h "" false])%list |} :: rest |},
     length (shapes sl)).
Proof. reflexivity. Qed.

Lemma set_text_last (layouts : list SlideLayout) (layout : SlideLayout)
      (shs : list Shape) (x : Shape) (rest : list Slide) (text : string) :
  Pptx.set_text 0 (length shs) text
    {| slide_layouts := layouts;
       slides := {| slide_layout := layout; shapes := (shs ++ [x])%list |} :: rest |}
  = {| slide_layouts := layouts;
       slides := {| slide_layout := layout;
                    shapes := (shs ++ [Pptx.set_text_of text x])%list |} :: rest |}.
Proof.
  unfold Pptx.set_text, Pptx.update_shapes, Pptx.with_shapes. simpl.
  now rewrite alter_last.
Qed.

Lemma set_word_wrap_last (layouts : list SlideLayout) (layout : SlideLayout)
      (shs : list Shape) (x : Shape) (rest : list Slide) (b : bool) :
  Pptx.set_word_wrap 0 (length shs) b
    {| slide_layouts := layouts;
       slides := {| slide_layout := layout; shapes := (shs ++ [x])%list |} :: rest |}
  = {| slide_layouts := layouts;
       slides := {| slide_layout := layout;
                    shapes := (shs ++ [Pptx.set_word_wrap_of b x])%list |} :: rest |}.
Proof.
  unfold Pptx.set_word_wrap, Pptx.update_shapes, Pptx.with_shapes. simpl.
  now rewrite alter_last.
Qed.

(** [_populate_slides] on a presentation that has a first slide: the
    title region when the slide has no title, then the body region. *)
Lemma populate_first_slide (layouts : list SlideLayout) (sl : Slide) (rest : list Slide) :
  _populate_slides cv {| slide_layouts := layouts; slides := sl :: rest |}
  = Ok {| slide_layouts := layouts;
          slides := {| slide_layout := slide_layout sl;
                       shapes := (shapes sl ++ added_shapes cv (shapes sl))%list |} :: rest |}.
Proof.
  unfold _populate_slides, added_shapes.
  cbn [slides length Nat.eqb]. rewrite shapes_at_first.
  destruct (Pptx.title (shapes sl)) as [t|] eqn:Htitle.
  - rewrite add_textbox_first, set_word_wrap_last.
    destruct cv as [d|]; [rewrite set_text_last|]; reflexivity.
  - rewrite add_textbox_first, set_text_last. cbn [Pptx.set_text_of].
    rewrite add_textbox_first. cbn [slide_layout shapes].
    rewrite length_app. cbn [length].
    replace (length (shapes sl) + 1) with (length (shapes sl ++ [title_box])%list)
      by (rewrite length_app; reflexivity).
    rewrite set_word_wrap_last.
    destruct cv as [d|]; [rewrite set_text_last|];
      now rewrite <- app_assoc.
Qed.

End PopulationEngine.

Section LayoutChoice.

Lemma getitem_in_range {A : Type} (l : list A) (i : Z) :
  (0 <= i < Z.of_nat (length l))%Z -> PyStr.getitem l i = l !! Z.to_nat i.
Proof.
  intros [Hlo Hhi]. unfold PyStr.getitem.
  apply Z.leb_le in Hlo. apply Z.ltb_lt in Hhi. now rewrite Hlo, Hhi.
Qed.

(** With at least one layout the index is in range. *)
Lemma blank_layout_index_range (prs : Presentation) :
  slide_layouts prs <> [] ->
  (0 <= blank_layout_index prs < Z.of_nat (length (slide_layouts prs)))%Z.
Proof.
  intros Hne. unfold blank_layout_index.
  destruct (slide_layouts prs) as [|l0 ls]; [contradiction|].
  cbn [length]. lia.
Qed.

(** With fewer than seven layouts it is the index of the last one. *)
Lemma blank_layout_index_last (prs : Presentation) :
  length (slide_layouts prs) < 7 ->
  blank_layout_index prs = (Z.of_nat (length (slide_layouts prs)) - 1)%Z.
Proof. intros Hlt. unfold blank_layout_index. lia. Qed.

Lemma populate_no_slide (cv : option CVData) (layouts : list SlideLayout)
      (layout : SlideLayout) :
  PyStr.getitem layouts (blank_layout_index {| slide_layouts := layouts; slides := [] |})
  = Some layout ->
  _populate_slides cv {| slide_layouts := layouts; slides := [] |}
  = Ok {| slide_layouts := layouts;
          slides := [{| slide_layout := layout;
                        shapes := (fresh_shapes layout
                                   ++ added_shapes cv (fresh_shapes layout))%list |}] |}.
Proof.
  intros Hget.
  transitivity
    (_populate_slides cv
       {| slide_layouts := layouts;
          slides := [{| slide_layout := layout; shapes := fresh_shapes layout |}] |}).
  - unfold _populate_slides. cbn [slides length Nat.eqb slide_layouts].
    rewrite Hget. reflexivity.
  - exact (populate_first_slide cv layouts
             {| slide_layout := layout; shapes := fresh_shapes layout |} []).
Qed.

End LayoutChoice.

(** C9, as amended: on a document without slides whose template has at
    least one layout, the engine creates exactly one slide, from the
    layout at index [min(6, count - 1)]; the index is in range, and with
    fewer than seven layouts it is the index of the last layout. *)
Theorem populate_creates_one_slide (cv : option CVData) (prs : Presentation) :
  slides prs = [] ->
  slide_layouts prs <> [] ->
  (0 <= blank_layout_index prs < Z.of_nat (length (slide_layouts prs)))%Z
  /\ exists (layout : SlideLayout) (sl : Slide) (prs' : Presentation),
       slide_layouts prs !! Z.to_nat (blank_layout_index prs) = Some layout
       /\ _populate_slides cv prs = Ok prs'
       /\ slides prs' = [sl]
       /\ slide_layout sl = layout
       /\ slide_layouts prs' = slide_layouts prs
       /\ (length (slide_layouts prs) < 7 ->
           Z.to_nat (blank_layout_index prs) = length (slide_layouts prs) - 1
           /\ last (slide_layouts prs) = Some layout).
Proof.
  intros Hslides Hlayouts.
  pose proof (blank_layout_index_range prs Hlayouts) as Hrange.
  destruct prs as [layouts sls]. cbn [slides slide_layouts] in *. subst sls.
  split; [exact Hrange|].
  destruct (lookup_lt_is_Some_2 layouts
              (Z.to_nat (blank_layout_index {| slide_layouts := layouts; slides := [] |})))
    as [layout Hlayout]; [lia|].
  exists layout. eexists _, _. split; [exact Hlayout|].
  rewrite (populate_no_slide cv layouts layout)
    by (rewrite getitem_in_range by exact Hrange; exact Hlayout).
  split; [reflexivity|]. cbn [slides slide_layout slide_layouts].
  split; [reflexivity|]. split; [reflexivity|]. split; [reflexivity|].
  intros Hlt.
  assert (Z.to_nat (blank_layout_index {| slide_layouts := layouts; slides := [] |})
          = length layouts - 1) as Hidx
      by (rewrite blank_layout_index_last by exact Hlt; cbn [slide_layouts]; lia).
  split; [exact Hidx|].
  rewrite last_lookup. rewrite Hidx in Hlayout.
  replace (Nat.pred (length layouts)) with (length layouts - 1) by lia.
  exact Hlayout.
Qed.

(** The theorem of C9 at a template of three layouts. *)
Lemma populate_creates_one_slide_witness :
  exists (sl : Slide) (prs' : Presentation),
    _populate_slides None
      {| slide_layouts := [Scenario.title_layout; Scenario.title_layout; Scenario.blank_layout];
         slides := [] |} = Ok prs'
    /\ slides prs' = [sl]
    /\ slide_layout sl = Scenario.blank_layout.
Proof.
  destruct (populate_creates_one_slide None
              {| slide_layouts := [Scenario.title_layout; Scenario.title_layout;
                                   Scenario.blank_layout];
                 slides := [] |} eq_refl ltac:(discriminate))
    as (_ & layout & sl & prs' & Hlayout & Hrun & Hslides & Hsl & _).
  exists sl, prs'. split; [exact Hrun|]. split; [exact Hslides|].
  rewrite Hsl. injection Hlayout as <-. reflexivity.
Defined.

(** C9, as stated, fails: with no layout the index is -1, which is not
    in range, and the engine raises instead of creating a slide. *)
Lemma populate_no_layout_raises :
  slides Scenario.no_layout_template = []
  /\ blank_layout_index Scenario.no_layout_template = (-1)%Z
  /\ _populate_slides None Scenario.no_layout_template
     = Raise (IndexError "slide layout index out of range")
  /\ ~ exists prs' : Presentation,
         _populate_slides None Scenario.no_layout_template = Ok prs'.
Proof.
  repeat split; try reflexivity.
  intros [prs' Hrun]. discriminate Hrun.
Qed.

(** C10: on a document that has at least one slide the engine adds no
    slide and changes the first slide only: the layouts, the number of
    slides and every slide after the first are as before; the first slide
    keeps its layout and its shapes, and receives after them the title
    region (when it has no title) and the body region. *)
Theorem populate_existing_slide_frame (cv : option CVData) (prs : Presentation)
        (sl : Slide) (rest : list Slide) :
  slides prs = sl :: rest ->
  exists (sl' : Slide) (prs' : Presentation),
    _populate_slides cv prs = Ok prs'
    /\ slides prs' = sl' :: rest
    /\ length (slides prs') = length (slides prs)
    /\ slide_layouts prs' = slide_layouts prs
    /\ (forall i : nat, 0 < i -> slides prs' !! i = slides prs !! i)
    /\ slide_layout sl' = slide_layout sl
    /\ shapes sl' = (shapes sl ++ added_shapes cv (shapes sl))%list
    /\ (added_shapes cv (shapes sl) = [title_box; body_box cv]
        \/ added_shapes cv (shapes sl) = [body_box cv]).
Proof.
  intros Hslides. destruct prs as [layouts sls]. cbn [slides slide_layouts] in *.
  subst sls. eexists _, _. split; [apply populate_first_slide|].
  cbn [slides slide_layouts slide_layout shapes length].
  repeat (split; [reflexivity|]).
  split; [intros [|i] Hpos; [lia | reflexivity]|].
  repeat (split; [reflexivity|]).
  unfold added_shapes. destruct (Pptx.title (shapes sl)); [right | left]; reflexivity.
Qed.

(** The theorem of C10 at a deck of two slides. *)
Lemma populate_existing_slide_frame_witness :
  exists prs' : Presentation,
    _populate_slides (Some Scenario.empty_cv) Scenario.two_slide_deck = Ok prs'
    /\ length (slides prs') = 2
    /\ slides prs' !! 1 = slides Scenario.two_slide_deck !! 1.
Proof.
  destruct (populate_existing_slide_frame (Some Scenario.empty_cv) Scenario.two_slide_deck
              {| slide_layout := Scenario.title_layout; shapes := [Placeholder 0 "Profile"] |}
              [{| slide_layout := Scenario.blank_layout; shapes := [] |}] eq_refl)
    as (sl' & prs' & Hrun & _ & Hlen & _ & Hrest & _).
  exists prs'. split; [exact Hrun|]. split; [exact Hlen|]. apply Hrest. lia.
Defined.

Section BodyRegion.

(** The last shape of the first slide after a successful call is the
    body region. *)
Lemma populate_body_last (cv : option CVData) (prs : Presentation) :
  slides prs <> [] \/ slide_layouts prs <> [] ->
  exists (prs' : Presentation) (sl : Slide),
    _populate_slides cv prs = Ok prs'
    /\ slides prs' !! 0 = Some sl
    /\ last (shapes sl) = Some (body_box cv).
Proof.
  intros Hsome. destruct prs as [layouts [|sl0 rest]]; cbn [slides slide_layouts] in *.
  - destruct Hsome as [Hne|Hne]; [contradiction|].
    pose proof (blank_layout_index_range {| slide_layouts := layouts; slides := [] |} Hne)
      as Hrange. cbn [slide_layouts] in Hrange.
    destruct (lookup_lt_is_Some_2 layouts
                (Z.to_nat (blank_layout_index {| slide_layouts := layouts; slides := [] |})))
      as [layout Hlayout]; [lia|].
    eexists _, _.
    rewrite (populate_no_slide cv layouts layout)
      by (rewrite getitem_in_range by exact Hrange; exact Hlayout).
    split; [reflexivity|]. split; [reflexivity|].
    cbn [shapes]. unfold added_shapes. now rewrite !app_assoc, last_snoc.
  - eexists _, _. rewrite populate_first_slide.
    split; [reflexivity|]. split; [reflexivity|].
    cbn [shapes]. unfold added_shapes. now rewrite !app_assoc, last_snoc.
Qed.

End BodyRegion.

(** C2, as amended: for every parsed CV, on a document that has a slide or
    a template that has a layout, the engine returns and the last shape of
    the first slide is the body region, with word wrap, whose text is
    "Summary:", a newline and the value of the key [summary] of the
    sections; the fallback "No summary available" is written when the
    sections have no key [summary], and a summary that is present is
    written as it is, also when it is empty. *)
Theorem populate_body_text (d : CVData) (prs : Presentation) :
  slides prs <> [] \/ slide_layouts prs <> [] ->
  exists (prs' : Presentation) (sl : Slide) (text : string),
    _populate_slides (Some d) prs = Ok prs'
    /\ slides prs' !! 0 = Some sl
    /\ last (shapes sl)
       = Some (TextBox (Pptx.Inches 1) (Pptx.Inches 2) (Pptx.Inches 8) (Pptx.Inches 4)
                       text true)
    /\ (cv_sections d !! "summary" = None ->
        text = "Summary:" ++ PyStr.nl_str ++ "No summary available")
    /\ (forall summary : string,
          cv_sections d !! "summary" = Some summary ->
          text = "Summary:" ++ PyStr.nl_str ++ summary).
Proof.
  intros Hsome.
  destruct (populate_body_last (Some d) prs Hsome) as (prs' & sl & Hrun & Hsl & Hlast).
  exists prs', sl, (body_text (Some d)).
  split; [exact Hrun|]. split; [exact Hsl|]. split; [exact Hlast|].
  unfold body_text. split.
  - intros Hnone. now rewrite Hnone.
  - intros summary Hsummary. now rewrite Hsummary.
Qed.

(** The theorem of C2 at a document without a summary. *)
Lemma populate_body_text_witness :
  exists (prs' : Presentation) (sl : Slide),
    _populate_slides (Some Scenario.cv_without_summary) Scenario.empty_template = Ok prs'
    /\ slides prs' !! 0 = Some sl
    /\ last (shapes sl)
       = Some (TextBox (Pptx.Inches 1) (Pptx.Inches 2) (Pptx.Inches 8) (Pptx.Inches 4)
                       ("Summary:" ++ PyStr.nl_str ++ "No summary available") true).
Proof.
  assert (slides Scenario.empty_template <> [] \/ slide_layouts Scenario.empty_template <> [])
    as Hpre by (right; discriminate).
  assert (cv_sections Scenario.cv_without_summary !! "summary" = None)
    as Habsent by (vm_compute; reflexivity).
  pose proof (populate_body_text Scenario.cv_without_summary Scenario.empty_template Hpre)
    as Hbody.
  destruct Hbody as (prs' & sl & text & Hrun & Hsl & Hlast & Hnone & _).
  exists prs', sl. split; [exact Hrun|]. split; [exact Hsl|].
  rewrite Hlast, (Hnone Habsent). reflexivity.
Defined.

(** C2, as stated, fails: the summary of an empty CV is present and
    empty, and the body region is then "Summary:" and a newline, without
    the fallback. *)
Lemma populate_empty_summary_no_fallback :
  cv_sections Scenario.empty_cv !! "summary" = Some ""
  /\ exists (prs' : Presentation) (sl : Slide) (text : string),
       _populate_slides (Some Scenario.empty_cv) Scenario.empty_template = Ok prs'
       /\ slides prs' !! 0 = Some sl
       /\ last (shapes sl)
          = Some (TextBox (Pptx.Inches 1) (Pptx.Inches 2) (Pptx.Inches 8) (Pptx.Inches 4)
                          text true)
       /\ text = "Summary:" ++ PyStr.nl_str
       /\ text <> "Summary:" ++ PyStr.nl_str ++ "No summary available".
Proof.
  assert (cv_sections Scenario.empty_cv !! "summary" = Some "") as Hempty
      by (vm_compute; reflexivity).
  split; [exact Hempty|].
  assert (slides Scenario.empty_template <> [] \/ slide_layouts Scenario.empty_template <> [])
    as Hpre by (right; discriminate).
  destruct (populate_body_last (Some Scenario.empty_cv) Scenario.empty_template Hpre)
    as (prs' & sl & Hrun & Hsl & Hlast).
  exists prs', sl, (body_text (Some Scenario.empty_cv)).
  split; [exact Hrun|]. split; [exact Hsl|]. split; [exact Hlast|].
  unfold body_text. rewrite Hempty. split; [reflexivity | discriminate].
Qed.

(** ** The driver *)

Section Driver.

Variable env : Env.
Variable cfg : Config.

Lemma validate_inputs_extension :
  PyStr.lower (suffix (instructions_path cfg)) ∉ [".xlsx"; ".xls"] ->
  validate_inputs env cfg = false.
Proof.
  intros Hext. unfold validate_inputs.
  destruct (env_exists env (cv_path cfg)); [|reflexivity].
  destruct (env_exists env (instructions_path cfg)); [|reflexivity].
  cbn [negb]. now rewrite bool_decide_eq_false_2.
Qed.

(** A run whose inputs are not valid raises at once and leaves the
    state as it was. *)
Lemma run_invalid (s : State) :
  validate_inputs env cfg = false ->
  run env cfg s = (Raise (ValueError "Input validation failed"), s).
Proof. intros Hinvalid. unfold run. now rewrite Hinvalid. Qed.

End Driver.

(** C8: when the extension of the instructions path, in lower case, is
    neither [.xlsx] nor [.xls], validation fails and a run on a fresh
    object raises the validation error with the state untouched: the
    trace log is empty and no file was written. *)
Theorem run_rejects_instructions_extension (env : Env) (cfg : Config) :
  PyStr.lower (suffix (instructions_path cfg)) ∉ [".xlsx"; ".xls"] ->
  validate_inputs env cfg = false
  /\ run env cfg init = (Raise (ValueError "Input validation failed"), init)
  /\ traceability_log (snd (run env cfg init)) = []
  /\ files (snd (run env cfg init)) = ∅.
Proof.
  intros Hext.
  pose proof (validate_inputs_extension env cfg Hext) as Hinvalid.
  rewrite (run_invalid env cfg init Hinvalid).
  split; [exact Hinvalid|]. split; [reflexivity|]. split; reflexivity.
Qed.

(** The theorem of C8 at an instructions file named [rules.csv]. *)
Lemma run_rejects_instructions_extension_witness :
  suffix (instructions_path (Scenario.cfg_of "resume.txt" "rules.csv" None)) = ".csv"
  /\ run (Scenario.quiet_env "Experienced engineer..." [Scenario.copy_row]
                             Scenario.empty_template (fun _ => ""))
         (Scenario.cfg_of "resume.txt" "rules.csv" None) init
     = (Raise (ValueError "Input validation failed"), init).
Proof.
  split; [reflexivity|].
  assert (PyStr.lower (suffix (instructions_path (Scenario.cfg_of "resume.txt" "rules.csv" None)))
          ∉ [".xlsx"; ".xls"]) as Hext.
  { intros Hin. repeat (apply elem_of_cons in Hin as [Hin|Hin]; [discriminate Hin|]).
    now apply elem_of_nil in Hin. }
  pose proof (run_rejects_instructions_extension
                (Scenario.quiet_env "Experienced engineer..." [Scenario.copy_row]
                                    Scenario.empty_template (fun _ => ""))
                (Scenario.cfg_of "resume.txt" "rules.csv" None) Hext) as Hrun.
  destruct Hrun as (_ & Hrun & _). exact Hrun.
Defined.

(** ** The files a run writes *)

Section Files.

Variable env : Env.
Variable cfg : Config.




(** A write that fails leaves the files as they were or adds what is
    left of the file. *)
Lemma failed_write_files (created : bool) (path : string) (s : State) :
  exists s' : State,
    failed_write created path s = (Ok tt, s')
    /\ traceability_log s' = traceability_log s
    /\ (files s' = files s \/ files s' = <[path := PartialFile]> (files s)).
Proof.
  unfold failed_write, modify. eexists. split; [reflexivity|].
  destruct created; cbn [traceability_log with_files files]; auto.
Qed.



(** The two output paths of a run differ. *)
Lemma output_paths_differ (d : Path) (t t' : string) :
  path_str (joinpath d ("CV_Presentation_" ++ t ++ ".pptx"))
  <> path_str (joinpath d ("Traceability_Report_" ++ t' ++ ".json")).
Proof.
  unfold joinpath. cbn [path_str].
  destruct (String.eqb (path_str d) "."); [discriminate|].
  destruct (PyStr.endswith (path_str d) "/"); intros Heq;
    apply String.app_inj in Heq; discriminate Heq.
Qed.


End Files.



(** ** The end-to-end run *)

Section EndToEnd.

Variable env : Env.
Variable cfg : Config.

Lemma parse_instructions_run (s : State) (rows : list (gmap string pyobj)) :
  env_read_excel env (instructions_path cfg) = inl rows ->
  exists (ins : Instructions) (e : TraceEntry),
    parse_instructions env cfg s
    = (Ok ins, {| cv_data := cv_data s; instructions := Some ins;
                  job_requirements := job_requirements s;
                  traceability_log := traceability_log s ++ [e];
                  clock := S (S (clock s)); files := files s |})
    /\ ins_rules ins = List.map rule_of_row rows
    /\ entry_step e = "instruction_parsing".
Proof.
  intros Hread. eexists _, _.
  unfold parse_instructions, bind, now. rewrite Hread.
  split; [reflexivity|]. cbn [ins_rules entry_step].
  split; [apply fold_append_rule | reflexivity].
Qed.

Lemma parse_job_description_none (s : State) :
  job_description_path cfg = None ->
  parse_job_description env cfg s = (Ok None, s).
Proof. intros Hnone. unfold parse_job_description. now rewrite Hnone. Qed.

Lemma generate_powerpoint_run (s : State) (prs prs' : Presentation) :
  env_Presentation env (path_str (template_path cfg)) = inl prs ->
  _populate_slides (cv_data s) prs = Ok prs' ->
  (forall (p : string) (q : Presentation), env_save env p q = None) ->
  exists e : TraceEntry,
    generate_powerpoint env cfg None s
    = (Ok (joinpath (output_dir cfg)
                    ("CV_Presentation_" ++ env_strftime env (clock s) ++ ".pptx")),
       {| cv_data := cv_data s; instructions := instructions s;
          job_requirements := job_requirements s;
          traceability_log := traceability_log s ++ [e];
          clock := S (S (clock s));
          files := <[path_str (joinpath (output_dir cfg)
                                ("CV_Presentation_" ++ env_strftime env (clock s) ++ ".pptx"))
                     := PptxFile prs']> (files s) |})
    /\ entry_step e = "ppt_generation".
Proof.
  intros Hload Hpopulate Hsave. eexists.
  unfold generate_powerpoint, _log_traceability.
  unfold bind, now, ask, lift, get, modify, ret, raise.
  rewrite Hload. cbn [cv_data with_clock]. rewrite Hpopulate, Hsave.
  split; reflexivity.
Qed.

Lemma generate_traceability_report_run (s : State) :
  (forall (p : string) (r : Report), env_dump env p r = None) ->
  exists r : Report,
    generate_traceability_report env cfg None s
    = (Ok (joinpath (output_dir cfg)
                    ("Traceability_Report_" ++ env_strftime env (clock s) ++ ".json")),
       {| cv_data := cv_data s; instructions := instructions s;
          job_requirements := job_requirements s;
          traceability_log := traceability_log s;
          clock := S (S (clock s));
          files := <[path_str (joinpath (output_dir cfg)
                                ("Traceability_Report_" ++ env_strftime env (clock s)
                                 ++ ".json"))
                     := ReportFile r]> (files s) |})
    /\ rep_processing_log r = traceability_log s
    /\ rep_total_steps r = length (traceability_log s)
    /\ rep_cv_sections_extracted r
       = match cv_data s with Some d => size (cv_sections d) | None => 0 end
    /\ rep_instruction_rules r
       = match instructions s with Some i => length (ins_rules i) | None => 0 end.
Proof.
  intros Hdump. eexists.
  unfold generate_traceability_report.
  unfold bind, now, ask, lift, get, modify, ret, raise.
  rewrite Hdump. repeat split; reflexivity.
Qed.

(** A layout without a title placeholder gives a slide without a title. *)
Lemma title_fresh_shapes (layout : SlideLayout) :
  0 ∉ layout_placeholders layout -> Pptx.title (fresh_shapes layout) = None.
Proof.
  unfold Pptx.title, fresh_shapes.
  induction (layout_placeholders layout) as [|idx idxs IH]; intros Hnotin;
    [reflexivity|].
  apply not_elem_of_cons in Hnotin as [Hne Hnotin]. cbn.
  destruct idx as [|idx]; [contradiction|]. cbn. exact (IH Hnotin).
Qed.

End EndToEnd.

(** C1, as amended: for a plain-text CV of at most 200 characters (the
    text "Experienced engineer..." has 23), a table of one rule, a template
    without slides that has 7 layouts, the one at index 6 without a title
    placeholder, and no job description, the run returns; the document on
    disk has exactly one slide, made from the layout at index 6, whose
    added shapes are the title region "CV Summary" and the body region
    "Summary:", newline, the text; the trace log has the three steps
    [cv_parsing], [instruction_parsing], [ppt_generation]; the report on
    disk has [total_steps = 3], [cv_sections_extracted = 5] and
    [instruction_rules = 1]. *)
Theorem run_end_to_end (env : Env) (cfg : Config) (raw : string)
        (row : gmap string pyobj) (layouts : list SlideLayout) (blank : SlideLayout) :
  validate_inputs env cfg = true ->
  PyStr.lower (suffix (cv_path cfg)) = ".txt" ->
  job_description_path cfg = None ->
  env_read_text env (cv_path cfg) = inl raw ->
  String.length raw <= 200 ->
  env_read_excel env (instructions_path cfg) = inl [row] ->
  env_Presentation env (path_str (template_path cfg))
  = inl {| slide_layouts := layouts; slides := [] |} ->
  length layouts = 7 ->
  layouts !! 6 = Some blank ->
  0 ∉ layout_placeholders blank ->
  (forall (p : string) (q : Presentation), env_save env p q = None) ->
  (forall (p : string) (r : Report), env_dump env p r = None) ->
  exists (res : Results) (s' : State) (report : Report),
    run env cfg init = (Ok res, s')
    /\ files s' !! path_str (powerpoint res)
       = Some (PptxFile
                 {| slide_layouts := layouts;
                    slides :=
                      [{| slide_layout := blank;
                          shapes :=
                            (fresh_shapes blank
                             ++ [TextBox (Pptx.Inches 1) (Pptx.Inches 1) (Pptx.Inches 8)
                                         (Pptx.Inches 1) "CV Summary" false;
                                 TextBox (Pptx.Inches 1) (Pptx.Inches 2) (Pptx.Inches 8)
                                         (Pptx.Inches 4)
                                         ("Summary:" ++ PyStr.nl_str ++ raw) true])%list |}] |})
    /\ files s' !! path_str (traceability_report res) = Some (ReportFile report)
    /\ entry_step <$> traceability_log s'
       = ["cv_parsing"; "instruction_parsing"; "ppt_generation"]
    /\ rep_processing_log report = traceability_log s'
    /\ rep_total_steps report = 3
    /\ rep_cv_sections_extracted report = 5
    /\ rep_instruction_rules report = 1.
Proof.
  intros Hvalid Htxt Hjd Hread Hlen Hexcel Hload Hseven Hblank Htitle Hsave Hdump.
  destruct (parse_cv_txt_run env cfg init raw Htxt Hread) as (e1 & H1 & Hstep1).
  cbn [instructions job_requirements traceability_log clock files init app] in H1.
  match type of H1 with _ = (Ok ?d0, _) => set (d := d0) in * end.
  match type of H1 with _ = (_, ?s0) => set (s1 := s0) in * end.
  destruct (parse_instructions_run env cfg s1 [row] Hexcel) as (ins & e2 & H2 & Hrules & Hstep2).
  match type of H2 with _ = (Ok _, ?s0) => set (s2 := s0) in * end.
  pose proof (parse_job_description_none env cfg s2 Hjd) as H3.
  assert (_populate_slides (cv_data s2) {| slide_layouts := layouts; slides := [] |}
          = Ok {| slide_layouts := layouts;
                  slides := [{| slide_layout := blank;
                                shapes := (fresh_shapes blank
                                           ++ [title_box; body_box (Some d)])%list |}] |})
    as Hpopulate.
  { change (cv_data s2) with (Some d).
    rewrite (populate_no_slide (Some d) layouts blank).
    - unfold added_shapes. now rewrite (title_fresh_shapes blank Htitle).
    - unfold blank_layout_index. cbn [slide_layouts]. rewrite Hseven.
      rewrite getitem_in_range by (rewrite Hseven; lia). exact Hblank. }
  destruct (generate_powerpoint_run env cfg s2 _ _ Hload Hpopulate Hsave) as (e3 & H4 & Hstep3).
  match type of H4 with _ = (Ok ?p0, _) => set (pp := p0) in * end.
  match type of H4 with _ = (_, ?s0) => set (s4 := s0) in * end.
  destruct (generate_traceability_report_run env cfg s4 Hdump)
    as (report & H5 & Hlog & Hsteps & Hsections & Hcount).
  match type of H5 with _ = (Ok ?p0, _) => set (rp := p0) in * end.
  match type of H5 with _ = (_, ?s0) => set (s5 := s0) in * end.
  exists {| powerpoint := pp; traceability_report := rp |}, s5, report.
  assert (path_str pp <> path_str rp) as Hne by apply output_paths_differ.
  split.
  { unfold run. rewrite Hvalid. cbn [negb]. unfold bind.
    rewrite H1. cbv beta iota. rewrite H2. cbv beta iota. rewrite H3. cbv beta iota.
    rewrite H4. cbv beta iota. rewrite H5. reflexivity. }
  cbn [powerpoint traceability_report].
  unfold s5, s4, s2, s1 in *.
  cbn [cv_data instructions job_requirements traceability_log clock files app] in *.
  split.
  { rewrite lookup_insert_ne by (intros Heq; apply Hne; now rewrite Heq).
    assert (body_box (Some d)
            = TextBox (Pptx.Inches 1) (Pptx.Inches 2) (Pptx.Inches 8) (Pptx.Inches 4)
                      ("Summary:" ++ PyStr.nl_str ++ raw) true) as Hbody.
    { unfold body_box, body_text, d. cbn [cv_sections].
      rewrite extract_cv_sections_summary, slice_to_all by exact Hlen. reflexivity. }
    rewrite lookup_insert_eq, Hbody. reflexivity. }
  split; [apply lookup_insert_eq|].
  split.
  { cbn [fmap list_fmap]. now rewrite Hstep1, Hstep2, Hstep3. }
  split; [rewrite Hlog; reflexivity|].
  split; [rewrite Hsteps; reflexivity|].
  split.
  - rewrite Hsections. unfold d. cbn [cv_sections]. apply extract_cv_sections_size.
  - rewrite Hcount. now rewrite Hrules.
Qed.

(** The theorem of C1 at the scenario of the specification. *)
Lemma run_end_to_end_witness :
  exists (res : Results) (s' : State) (report : Report),
    run Scenario.e2e_env Scenario.e2e_cfg init = (Ok res, s')
    /\ files s' !! path_str (powerpoint res)
       = Some (PptxFile
                 {| slide_layouts := slide_layouts Scenario.empty_template;
                    slides :=
                      [{| slide_layout := Scenario.blank_layout;
                          shapes :=
                            (fresh_shapes Scenario.blank_layout
                             ++ [TextBox (Pptx.Inches 1) (Pptx.Inches 1) (Pptx.Inches 8)
                                         (Pptx.Inches 1) "CV Summary" false;
                                 TextBox (Pptx.Inches 1) (Pptx.Inches 2) (Pptx.Inches 8)
                                         (Pptx.Inches 4)
                                         ("Summary:" ++ PyStr.nl_str
                                          ++ "Experienced engineer...") true])%list |}] |})
    /\ files s' !! path_str (traceability_report res) = Some (ReportFile report)
    /\ entry_step <$> traceability_log s'
       = ["cv_parsing"; "instruction_parsing"; "ppt_generation"]
    /\ rep_processing_log report = traceability_log s'
    /\ rep_total_steps report = 3
    /\ rep_cv_sections_extracted report = 5
    /\ rep_instruction_rules report = 1.
Proof.
  apply (run_end_to_end Scenario.e2e_env Scenario.e2e_cfg "Experienced engineer..."
           Scenario.copy_row (slide_layouts Scenario.empty_template) Scenario.blank_layout).
  - vm_compute. reflexivity.
  - reflexivity.
  - reflexivity.
  - reflexivity.
  - simpl. lia.
  - reflexivity.
  - reflexivity.
  - reflexivity.
  - reflexivity.
  - apply not_elem_of_nil.
  - reflexivity.
  - reflexivity.
Defined.

(** The text of the scenario has 23 characters. *)
Example scenario_text_length : String.length "Experienced engineer..." = 23.
Proof. reflexivity. Qed.

(** C1, as stated, fails: on a template without slides whose 7 layouts
    all carry a title placeholder, the run creates one slide from the
    layout at index 6 and a body region, but no title region: the slide
    has the empty title placeholder of its layout, and no shape reads
    "CV Summary". *)
Lemma run_titled_layout_no_title_region :
  length (slide_layouts Scenario.titled_template) = 7
  /\ slides Scenario.titled_template = []
  /\ exists (res : Results) (s' : State) (sl : Slide),
       run Scenario.e2e_titled_env Scenario.e2e_cfg init = (Ok res, s')
       /\ files s' !! path_str (powerpoint res)
          = Some (PptxFile {| slide_layouts := slide_layouts Scenario.titled_template;
                              slides := [sl] |})
       /\ slide_layouts Scenario.titled_template !! 6 = Some (slide_layout sl)
       /\ shapes sl
          = [Placeholder 0 "";
             TextBox (Pptx.Inches 1) (Pptx.Inches 2) (Pptx.Inches 8) (Pptx.Inches 4)
                     ("Summary:" ++ PyStr.nl_str ++ "Experienced engineer...") true]
       /\ title_box ∉ shapes sl.
Proof.
  split; [reflexivity|]. split; [reflexivity|].
  exists {| powerpoint := Scenario.mk_path "out" "CV_Presentation_20240501_093000.pptx";
            traceability_report :=
              Scenario.mk_path "out" "Traceability_Report_20240501_093000.json" |},
         (snd (run Scenario.e2e_titled_env Scenario.e2e_cfg init)),
         {| slide_layout := Scenario.title_layout;
            shapes := [Placeholder 0 "";
                       TextBox (Pptx.Inches 1) (Pptx.Inches 2) (Pptx.Inches 8) (Pptx.Inches 4)
                               ("Summary:" ++ PyStr.nl_str ++ "Experienced engineer...")
                               true] |}.
  split; [vm_compute; reflexivity|].
  split; [vm_compute; reflexivity|].
  split; [reflexivity|]. split; [reflexivity|].
  cbn [shapes]. intros Hin.
  repeat (apply elem_of_cons in Hin as [Hin|Hin]; [discriminate Hin|]).
  now apply elem_of_nil in Hin.
Qed.

(** ** The outcomes of the methods *)

Section Outcomes.

Variable env : Env.
Variable cfg : Config.

Lemma logged_refl (s s' : State) :
  traceability_log s' = traceability_log s -> logged [] s s'.
Proof.
  intros Hlog. exists []. rewrite app_nil_r.
  split; [exact Hlog|]. split; [reflexivity | constructor].
Qed.

Lemma logged_trans (t1 t2 : list string) (s1 s2 s3 : State) :
  logged t1 s1 s2 -> logged t2 s2 s3 -> logged (t1 ++ t2) s1 s3.
Proof.
  intros (es1 & Hlog1 & Htags1 & Hb1) (es2 & Hlog2 & Htags2 & Hb2).
  exists (es1 ++ es2)%list. rewrite Hlog2, Hlog1, <- app_assoc.
  split; [reflexivity|]. split.
  - now rewrite fmap_app, Htags1, Htags2.
  - now apply Forall_app.
Qed.

(** A summary has at most 503 characters, whatever [str(data)] is. *)
Lemma summary_length (data_str : string) :
  String.length (if (max_length <? String.length data_str)%nat
                 then PyStr.slice_to max_length data_str ++ "..."
                 else data_str) <= 503.
Proof.
  unfold max_length. destruct (500 <? String.length data_str)%nat eqn:Hlong.
  - rewrite string_length_app, length_slice_to. cbn [String.length]. lia.
  - apply Nat.ltb_ge in Hlong. lia.
Qed.

Lemma log_traceability_outcome (step description : string) (data : Data) (s : State) :
  exists s' : State,
    _log_traceability env step description data s = (Ok tt, s')
    /\ logged [step] s s' /\ same_data s s'.
Proof.
  eexists. split; [apply log_traceability_run|]. split.
  - eexists [_]. cbn [traceability_log with_traceability_log with_clock].
    split; [reflexivity|]. split; [reflexivity|].
    constructor; [apply summary_length | constructor].
  - repeat split.
Qed.

(** [parse_cv]: it returns whenever the text is at hand, and then stores
    the document and logs one entry; it raises the exception of the
    reader otherwise, having done nothing but read the clock. *)
Lemma parse_cv_outcome (s : State) :
  match cv_text_of env cfg with
  | inl raw =>
      exists (d : CVData) (s' : State),
        parse_cv env cfg s = (Ok d, s')
        /\ cv_data s' = Some d
        /\ cv_raw_text d = raw
        /\ cv_sections d = _extract_cv_sections raw
        /\ instructions s' = instructions s
        /\ job_requirements s' = job_requirements s
        /\ files s' = files s
        /\ logged ["cv_parsing"] s s'
  | inr e => parse_cv env cfg s = (Raise e, with_clock (S (clock s)) s)
  end.
Proof.
  unfold cv_text_of, parse_cv. unfold_monad.
  destruct (String.eqb _ ".txt");
    [destruct (env_read_text env (cv_path cfg)) as [raw|e]; [|reflexivity]
    | destruct (bool_decide _)];
    (eexists _, _; split; [reflexivity|];
     repeat (split; [reflexivity|]);
     eexists [_]; split; [reflexivity|]; split; [reflexivity|];
     constructor; [apply summary_length | constructor]).
Qed.

(** [parse_instructions]: it stores the table and logs one entry, or
    raises the exception of the reader and leaves the state as it was. *)
Lemma parse_instructions_outcome (s : State) :
  match env_read_excel env (instructions_path cfg) with
  | inl rows =>
      exists (ins : Instructions) (s' : State),
        parse_instructions env cfg s = (Ok ins, s')
        /\ instructions s' = Some ins
        /\ ins_rules ins = List.map rule_of_row rows
        /\ ins_raw_data ins = env_records env (instructions_path cfg)
        /\ cv_data s' = cv_data s
        /\ job_requirements s' = job_requirements s
        /\ files s' = files s
        /\ logged ["instruction_parsing"] s s'
  | inr e => parse_instructions env cfg s = (Raise e, s)
  end.
Proof.
  unfold parse_instructions. unfold_monad.
  destruct (env_read_excel env (instructions_path cfg)) as [rows|e]; [|reflexivity].
  eexists _, _. split; [reflexivity|]. cbn [ins_rules ins_raw_data].
  split; [reflexivity|]. split; [apply fold_append_rule|].
  repeat (split; [reflexivity|]).
  eexists [_]. split; [reflexivity|]. split; [reflexivity|].
  constructor; [apply summary_length | constructor].
Qed.

(** [parse_job_description]: without a path it returns [None] and does
    nothing; with a path it stores the requirements and logs one entry,
    or raises the exception of the reader and leaves the state as it
    was. *)
Lemma parse_job_description_outcome (s : State) :
  match job_description_path cfg with
  | None => parse_job_description env cfg s = (Ok None, s)
  | Some jd_path =>
      match env_read_text env jd_path with
      | inl text =>
          exists (j : JobRequirements) (s' : State),
            parse_job_description env cfg s = (Ok (Some j), s')
            /\ job_requirements s' = Some j
            /\ jd_raw_text j = text
            /\ jd_requirements j = requirements_of text
            /\ cv_data s' = cv_data s
            /\ instructions s' = instructions s
            /\ files s' = files s
            /\ logged ["jd_parsing"] s s'
      | inr e => parse_job_description env cfg s = (Raise e, s)
      end
  end.
Proof.
  unfold parse_job_description.
  destruct (job_description_path cfg) as [jd_path|]; [|reflexivity].
  unfold_monad.
  destruct (env_read_text env jd_path) as [text|e]; [|reflexivity].
  eexists _, _. split; [reflexivity|].
  repeat (split; [reflexivity|]).
  eexists [_]. split; [reflexivity|]. split; [reflexivity|].
  constructor; [apply summary_length | constructor].
Qed.

End Outcomes.

Section GeneratorOutcomes.

Variable env : Env.
Variable cfg : Config.

(** [generate_powerpoint]: either the template loads, the engine returns
    and the document is saved, and then the file is written and one entry
    logged; or one of the three raises, and then the log and the data are
    as before, and the files too, but for what a failed save may leave. *)
Lemma generate_powerpoint_outcome (s : State) :
  (exists (prs prs' : Presentation) (s' : State),
      generate_powerpoint env cfg None s = (Ok (powerpoint_path env cfg s), s')
      /\ env_Presentation env (path_str (template_path cfg)) = inl prs
      /\ _populate_slides (cv_data s) prs = Ok prs'
      /\ files s' = <[path_str (powerpoint_path env cfg s) := PptxFile prs']> (files s)
      /\ cv_data s' = cv_data s
      /\ instructions s' = instructions s
      /\ job_requirements s' = job_requirements s
      /\ logged ["ppt_generation"] s s')
  \/ (exists (e : exn) (s' : State),
         generate_powerpoint env cfg None s = (Raise e, s')
         /\ traceability_log s' = traceability_log s
         /\ (files s' = files s
             \/ files s' = <[path_str (powerpoint_path env cfg s) := PartialFile]> (files s))).
Proof.
  unfold generate_powerpoint, powerpoint_path. unfold_monad.
  destruct (env_Presentation env (path_str (template_path cfg))) as [prs|e];
    [|right; eexists _, _; split; [reflexivity|]; split; [reflexivity | left; reflexivity]].
  lazymatch goal with
  | |- context [_populate_slides ?c prs] =>
      destruct (_populate_slides c prs) as [prs'|e] eqn:Hpopulate
  end;
    [|right; eexists _, _; split; [reflexivity|]; split; [reflexivity | left; reflexivity]].
  lazymatch goal with
  | |- context [env_save env ?p prs'] => destruct (env_save env p prs') as [e|] eqn:Hsave
  end.
  - right. exists e.
    lazymatch goal with
    | |- context [env_created env ?p] => destruct (env_created env p)
    end; eexists; (split; [reflexivity|]); (split; [reflexivity|]);
      cbn [files with_files with_clock]; auto.
  - left. exists prs, prs'. eexists. split; [reflexivity|].
    split; [reflexivity|]. split; [exact Hpopulate|].
    repeat (split; [reflexivity|]).
    eexists [_]. split; [reflexivity|]. split; [reflexivity|].
    constructor; [apply summary_length | constructor].
Qed.

(** [generate_traceability_report]: either the report is written, and it
    holds the log and the three counts of the state, which is otherwise
    unchanged; or the writer raises, and then the log is as before, and
    the files too, but for what the failed write may leave. *)
Lemma generate_traceability_report_outcome (s : State) :
  (exists (rep : Report) (s' : State),
      generate_traceability_report env cfg None s = (Ok (report_path env cfg s), s')
      /\ files s' = <[path_str (report_path env cfg s) := ReportFile rep]> (files s)
      /\ traceability_log s' = traceability_log s
      /\ cv_data s' = cv_data s
      /\ instructions s' = instructions s
      /\ job_requirements s' = job_requirements s
      /\ rep_processing_log rep = traceability_log s
      /\ rep_total_steps rep = length (traceability_log s)
      /\ rep_cv_sections_extracted rep
         = match cv_data s with Some d => size (cv_sections d) | None => 0 end
      /\ rep_instruction_rules rep
         = match instructions s with Some i => length (ins_rules i) | None => 0 end)
  \/ (exists (e : exn) (s' : State),
         generate_traceability_report env cfg None s = (Raise e, s')
         /\ traceability_log s' = traceability_log s
         /\ (files s' = files s
             \/ files s' = <[path_str (report_path env cfg s) := PartialFile]> (files s))).
Proof.
  unfold generate_traceability_report, report_path. unfold_monad.
  lazymatch goal with
  | |- context [env_dump env ?p ?r] => destruct (env_dump env p r) as [e|] eqn:Hdump
  end.
  - right. exists e.
    lazymatch goal with
    | |- context [env_created env ?p] => destruct (env_created env p)
    end; eexists; (split; [reflexivity|]); (split; [reflexivity|]);
      cbn [files with_files with_clock]; auto.
  - left. eexists _, _. split; [reflexivity|].
    repeat (split; [reflexivity|]). reflexivity.
Qed.

End GeneratorOutcomes.

Section RunOutcomes.

Variable env : Env.
Variable cfg : Config.

(** The two ways [parse_job_description] ends, whether or not a path was
    given. *)
Lemma parse_job_description_cases (s : State) :
  (exists e : exn, parse_job_description env cfg s = (Raise e, s))
  \/ (exists (j : option JobRequirements) (s' : State),
         parse_job_description env cfg s = (Ok j, s')
         /\ logged (match job_description_path cfg with
                    | Some _ => ["jd_parsing"]
                    | None => []
                    end) s s'
         /\ cv_data s' = cv_data s
         /\ instructions s' = instructions s
         /\ files s' = files s).
Proof.
  pose proof (parse_job_description_outcome env cfg s) as Hjd.
  destruct (job_description_path cfg) as [jd_path|].
  - destruct (env_read_text env jd_path) as [text|e]; [|left; eauto].
    destruct Hjd as (j & s' & Hrun & _ & _ & _ & Hcv & Hins & Hfiles & Hlog).
    right. exists (Some j), s'. auto.
  - right. exists None, s. split; [exact Hjd|].
    split; [now apply logged_refl|]. auto.
Qed.

(** The three ways a run with valid inputs ends: it raises before the
    document is written (a failed save may leave a file that is not a
    document); it raises after the document is written, because the
    report cannot be (the failed write may leave a file that is not a
    report); it returns. *)
Lemma run_cases (s : State) :
  validate_inputs env cfg = true ->
  (exists (e : exn) (s' : State) (tags : list string),
      run env cfg s = (Raise e, s')
      /\ logged tags s s'
      /\ tags `prefix_of` parse_tags cfg
      /\ (files s' = files s
          \/ exists p : string, files s' = <[p := PartialFile]> (files s)))
  \/ (exists (e : exn) (s' : State) (prs' : Presentation) (pp rp : Path),
         run env cfg s = (Raise e, s')
         /\ logged (parse_tags cfg ++ ["ppt_generation"]) s s'
         /\ path_str pp <> path_str rp
         /\ (files s' = <[path_str pp := PptxFile prs']> (files s)
             \/ files s'
                = <[path_str rp := PartialFile]>
                    (<[path_str pp := PptxFile prs']> (files s))))
  \/ (exists (res : Results) (s' : State) (d : CVData) (ins : Instructions)
             (rows : list (gmap string pyobj)) (prs prs' : Presentation) (rep : Report),
         run env cfg s = (Ok res, s')
         /\ logged (parse_tags cfg ++ ["ppt_generation"]) s s'
         /\ cv_text_of env cfg = inl (cv_raw_text d)
         /\ cv_sections d = _extract_cv_sections (cv_raw_text d)
         /\ cv_data s' = Some d
         /\ instructions s' = Some ins
         /\ env_read_excel env (instructions_path cfg) = inl rows
         /\ ins_rules ins = List.map rule_of_row rows
         /\ env_Presentation env (path_str (template_path cfg)) = inl prs
         /\ _populate_slides (Some d) prs = Ok prs'
         /\ path_str (powerpoint res) <> path_str (traceability_report res)
         /\ files s'
            = <[path_str (traceability_report res) := ReportFile rep]>
                (<[path_str (powerpoint res) := PptxFile prs']> (files s))
         /\ rep_processing_log rep = traceability_log s'
         /\ rep_total_steps rep = length (traceability_log s')
         /\ rep_cv_sections_extracted rep = 5
         /\ rep_instruction_rules rep = length rows).
Proof.
  intros Hvalid. unfold run. rewrite Hvalid. cbn [negb]. unfold bind.
  pose proof (parse_cv_outcome env cfg s) as H1.
  destruct (cv_text_of env cfg) as [raw|e] eqn:Htext.
  2:{ rewrite H1. left. exists e, (with_clock (S (clock s)) s), [].
      split; [reflexivity|]. split; [now apply logged_refl|].
      split; [apply prefix_nil | left; reflexivity]. }
  destruct H1 as (d & s1 & -> & Hcv1 & Hraw & Hsec & _ & _ & Hfiles1 & Hlog1).
  pose proof (parse_instructions_outcome env cfg s1) as H2.
  destruct (env_read_excel env (instructions_path cfg)) as [rows|e] eqn:Hexcel.
  2:{ rewrite H2. left. exists e, s1, ["cv_parsing"].
      split; [reflexivity|]. split; [exact Hlog1|].
      split; [now exists ("instruction_parsing" ::
                           match job_description_path cfg with
                           | Some _ => ["jd_parsing"]
                           | None => []
                           end) | left; exact Hfiles1]. }
  destruct H2 as (ins & s2 & -> & Hins2 & Hrules & _ & Hcv2 & _ & Hfiles2 & Hlog2).
  pose proof (logged_trans _ _ _ _ _ Hlog1 Hlog2) as Hlog12. cbn [app] in Hlog12.
  destruct (parse_job_description_cases s2)
    as [(e & ->) | (j & s3 & -> & Hlog3 & Hcv3 & Hins3 & Hfiles3)].
  { left. exists e, s2, ["cv_parsing"; "instruction_parsing"].
    split; [reflexivity|]. split; [exact Hlog12|].
    split; [now eexists | left; now rewrite Hfiles2]. }
  pose proof (logged_trans _ _ _ _ _ Hlog12 Hlog3) as Hlog123.
  change (["cv_parsing"; "instruction_parsing"] ++ _)%list with (parse_tags cfg) in Hlog123.
  assert (files s3 = files s) as Hfiles by (now rewrite Hfiles3, Hfiles2).
  assert (cv_data s3 = Some d) as Hcv by (now rewrite Hcv3, Hcv2).
  assert (instructions s3 = Some ins) as Hins by (now rewrite Hins3).
  destruct (generate_powerpoint_outcome env cfg s3)
    as [(prs & prs' & s4 & -> & Hload & Hpopulate & Hfiles4 & Hcv4 & Hins4 & _ & Hlog4)
       | (e & s4 & -> & Hlog4 & Hfiles4)].
  2:{ left. exists e, s4, (parse_tags cfg).
      split; [reflexivity|].
      split; [destruct Hlog123 as (es & Hes & Htags & Hb); exists es;
              rewrite Hlog4; auto|].
      split; [reflexivity|]. rewrite Hfiles in Hfiles4.
      destruct Hfiles4 as [Hsame|Hpartial]; [left; exact Hsame | right; eauto]. }
  pose proof (logged_trans _ _ _ _ _ Hlog123 Hlog4) as Hlog1234.
  rewrite Hcv in Hpopulate. rewrite Hfiles in Hfiles4.
  assert (path_str (powerpoint_path env cfg s3) <> path_str (report_path env cfg s4)) as Hne
      by apply output_paths_differ.
  destruct (generate_traceability_report_outcome env cfg s4)
    as [(rep & s5 & -> & Hfiles5 & Hlog5 & Hcv5 & Hins5 & _ & Hplog & Hsteps & Hsections
         & Hcount)
       | (e & s5 & -> & Hlog5 & Hfiles5)].
  2:{ right. left. exists e, s5, prs', (powerpoint_path env cfg s3), (report_path env cfg s4).
      split; [reflexivity|].
      split; [destruct Hlog1234 as (es & Hes & Htags & Hb); exists es;
              rewrite Hlog5; auto|].
      split; [exact Hne|]. rewrite Hfiles4 in Hfiles5. exact Hfiles5. }
  right. right.
  exists {| powerpoint := powerpoint_path env cfg s3;
            traceability_report := report_path env cfg s4 |}, s5, d, ins, rows, prs, prs', rep.
  cbn [powerpoint traceability_report].
  split; [reflexivity|].
  split; [destruct Hlog1234 as (es & Hes & Htags & Hb); exists es;
          rewrite Hlog5; auto|].
  split; [now rewrite Hraw|]. split; [now rewrite Hraw|].
  split; [now rewrite Hcv5, Hcv4|]. split; [now rewrite Hins5, Hins4|].
  split; [reflexivity|]. split; [exact Hrules|].
  split; [exact Hload|]. split; [exact Hpopulate|].
  split; [exact Hne|].
  split; [now rewrite Hfiles5, Hfiles4|].
  split; [now rewrite Hlog5|]. split; [now rewrite Hlog5|].
  split.
  - rewrite Hsections, Hcv4, Hcv, Hsec. apply extract_cv_sections_size.
  - rewrite Hcount, Hins4, Hins, Hrules. apply length_map.
Qed.

End RunOutcomes.

(** ** Further properties: validation *)

Section Validation.

Variable env : Env.
Variable cfg : Config.

(** Any single failed check makes the validation fail. *)
Lemma validate_inputs_false :
  env_exists env (cv_path cfg) = false
  \/ env_exists env (instructions_path cfg) = false
  \/ PyStr.lower (suffix (instructions_path cfg)) ∉ [".xlsx"; ".xls"]
  \/ env_exists env (template_path cfg) = false
  \/ PyStr.lower (suffix (template_path cfg)) <> ".pptx"
  \/ (exists jd : Path, job_description_path cfg = Some jd /\ env_exists env jd = false) ->
  validate_inputs env cfg = false.
Proof.
  unfold validate_inputs.
  intros [H|[H|[H|[H|[H|(jd & Hjd & H)]]]]].
  - now rewrite H.
  - rewrite H. now destruct (env_exists env (cv_path cfg)).
  - rewrite (bool_decide_eq_false_2 _ H).
    destruct (env_exists env (cv_path cfg)); [|reflexivity].
    now destruct (env_exists env (instructions_path cfg)).
  - rewrite H.
    destruct (env_exists env (cv_path cfg)); [|reflexivity].
    destruct (env_exists env (instructions_path cfg)); [|reflexivity].
    now destruct (bool_decide _).
  - apply String.eqb_neq in H. rewrite H.
    destruct (env_exists env (cv_path cfg)); [|reflexivity].
    destruct (env_exists env (instructions_path cfg)); [|reflexivity].
    destruct (bool_decide _); [|reflexivity].
    now destruct (env_exists env (template_path cfg)).
  - rewrite Hjd, H.
    destruct (env_exists env (cv_path cfg)); [|reflexivity].
    destruct (env_exists env (instructions_path cfg)); [|reflexivity].
    destruct (bool_decide _); [|reflexivity].
    destruct (env_exists env (template_path cfg)); [|reflexivity].
    now destruct (String.eqb _ _).
Qed.

End Validation.

(** X1: [validate_inputs] returns [True] exactly when the CV, the
    instructions and the template exist, the instructions have the
    extension [.xlsx] or [.xls] and the template [.pptx] (both compared in
    lower case), and the job description, when one is given, exists. *)
Theorem validate_inputs_true_iff (env : Env) (cfg : Config) :
  validate_inputs env cfg = true
  <-> env_exists env (cv_path cfg) = true
      /\ env_exists env (instructions_path cfg) = true
      /\ PyStr.lower (suffix (instructions_path cfg)) ∈ [".xlsx"; ".xls"]
      /\ env_exists env (template_path cfg) = true
      /\ PyStr.lower (suffix (template_path cfg)) = ".pptx"
      /\ (forall jd : Path, job_description_path cfg = Some jd -> env_exists env jd = true).
Proof.
  split.
  - intros Hvalid.
    destruct (env_exists env (cv_path cfg)) eqn:Hcv;
      [|rewrite validate_inputs_false in Hvalid by auto; discriminate].
    destruct (env_exists env (instructions_path cfg)) eqn:Hins;
      [|rewrite validate_inputs_false in Hvalid by auto; discriminate].
    destruct (decide (PyStr.lower (suffix (instructions_path cfg)) ∈ [".xlsx"; ".xls"]))
      as [Hext|Hext];
      [|rewrite validate_inputs_false in Hvalid by auto; discriminate].
    destruct (env_exists env (template_path cfg)) eqn:Htpl;
      [|rewrite validate_inputs_false in Hvalid by auto; discriminate].
    destruct (decide (PyStr.lower (suffix (template_path cfg)) = ".pptx")) as [Hpptx|Hpptx];
      [|rewrite validate_inputs_false in Hvalid by auto 6; discriminate].
    repeat (split; [auto; fail|]).
    intros jd Hjd. destruct (env_exists env jd) eqn:Hexists; [reflexivity|].
    rewrite validate_inputs_false in Hvalid by eauto 10. discriminate.
  - intros (Hcv & Hins & Hext & Htpl & Hpptx & Hjd).
    unfold validate_inputs.
    rewrite Hcv, Hins, (bool_decide_eq_true_2 _ Hext), Htpl, Hpptx. cbn [negb].
    rewrite String.eqb_refl. cbn [negb].
    destruct (job_description_path cfg) as [jd|]; [|reflexivity].
    now rewrite (Hjd jd eq_refl).
Qed.

(** X2: when a required file is missing, the template is not a [.pptx]
    file, or the job description that was given is missing, [run] raises
    the validation error and leaves the object as it was: nothing is
    parsed, logged or written. *)
Theorem run_rejects_invalid_inputs (env : Env) (cfg : Config) (s : State) :
  env_exists env (cv_path cfg) = false
  \/ env_exists env (instructions_path cfg) = false
  \/ env_exists env (template_path cfg) = false
  \/ PyStr.lower (suffix (template_path cfg)) <> ".pptx"
  \/ (exists jd : Path, job_description_path cfg = Some jd /\ env_exists env jd = false) ->
  run env cfg s = (Raise (ValueError "Input validation failed"), s).
Proof.
  intros Hbad. apply run_invalid. apply validate_inputs_false.
  destruct Hbad as [H|[H|[H|[H|H]]]]; auto 10.
Qed.

(** The theorem of X2 at a template named [template.ppt]. *)
Lemma run_rejects_invalid_inputs_witness :
  run Scenario.e2e_env
      {| cv_path := Scenario.mk_path "in" "resume.txt";
         instructions_path := Scenario.mk_path "in" "rules.xlsx";
         template_path := Scenario.mk_path "in" "template.ppt";
         job_description_path := None;
         output_dir := Scenario.mk_path "." "out" |} init
  = (Raise (ValueError "Input validation failed"), init).
Proof.
  apply run_rejects_invalid_inputs.
  right. right. right. left. discriminate.
Defined.

(** ** Further properties: the parsers *)

(** X3: for a CV whose extension is not [.txt], [parse_cv] never reads the
    file and never raises: it returns and stores a document whose raw
    text is the non-empty placeholder made from the file name ("CV from
    file: ..." for [.pdf] and [.docx], "Unsupported format: ..."
    otherwise), with the five sections, a summary of at most 200
    characters, and one [cv_parsing] entry logged. *)
Theorem parse_cv_other_formats (env : Env) (cfg : Config) (s : State) :
  PyStr.lower (suffix (cv_path cfg)) <> ".txt" ->
  exists (d : CVData) (s' : State),
    parse_cv env cfg s = (Ok d, s')
    /\ cv_data s' = Some d
    /\ cv_raw_text d
       = (if bool_decide (PyStr.lower (suffix (cv_path cfg)) ∈ [".pdf"; ".docx"])
          then "CV from file: " else "Unsupported format: ") ++ path_name (cv_path cfg)
    /\ cv_raw_text d <> ""
    /\ dom (cv_sections d)
       = ({["summary"; "experience"; "education"; "skills"; "certifications"]} : gset string)
    /\ cv_sections d !! "summary" = Some (PyStr.slice_to 200 (cv_raw_text d))
    /\ String.length (PyStr.slice_to 200 (cv_raw_text d)) <= 200
    /\ logged ["cv_parsing"] s s'
    /\ files s' = files s.
Proof.
  intros Hext. pose proof (parse_cv_outcome env cfg s) as Hrun.
  unfold cv_text_of in Hrun. apply String.eqb_neq in Hext. rewrite Hext in Hrun.
  assert (exists raw : string,
             (if bool_decide (PyStr.lower (suffix (cv_path cfg)) ∈ [".pdf"; ".docx"])
              then inl ("CV from file: " ++ path_name (cv_path cfg))
              else inl ("Unsupported format: " ++ path_name (cv_path cfg)))
             = (inl raw : string + exn)
             /\ raw = (if bool_decide (PyStr.lower (suffix (cv_path cfg)) ∈ [".pdf"; ".docx"])
                       then "CV from file: " else "Unsupported format: ")
                      ++ path_name (cv_path cfg)
             /\ raw <> "") as (raw & Hraw & Hform & Hne)
      by (destruct (bool_decide _); eexists; repeat split; discriminate).
  rewrite Hraw in Hrun.
  destruct Hrun as (d & s' & Hrun & Hcv & Htext & Hsec & _ & _ & Hfiles & Hlog).
  exists d, s'. split; [exact Hrun|]. split; [exact Hcv|].
  rewrite Htext, Hsec. split; [exact Hform|]. split; [exact Hne|].
  split; [apply extract_cv_sections_dom|].
  split; [apply extract_cv_sections_summary|].
  split; [rewrite length_slice_to; lia|]. split; [exact Hlog | exact Hfiles].
Qed.

(** The theorem of X3 at a file named [resume.pdf] that cannot be read. *)
Lemma parse_cv_other_formats_witness :
  exists (d : CVData) (s' : State),
    parse_cv Scenario.unreadable_env Scenario.pdf_cfg init = (Ok d, s')
    /\ cv_raw_text d = "CV from file: resume.pdf".
Proof.
  assert (PyStr.lower (suffix (cv_path Scenario.pdf_cfg)) <> ".txt") as Hext by discriminate.
  pose proof (parse_cv_other_formats Scenario.unreadable_env Scenario.pdf_cfg init Hext)
    as Hrun.
  destruct Hrun as (d & s' & Hrun & _ & Htext & _).
  exists d, s'. split; [exact Hrun | exact Htext].
Defined.

(** X4: when the text of a [.txt] CV cannot be read, [parse_cv] raises the
    exception of the reader; no document is stored, nothing is logged and
    nothing is written. *)
Theorem parse_cv_read_failure (env : Env) (cfg : Config) (s : State) (e : exn) :
  PyStr.lower (suffix (cv_path cfg)) = ".txt" ->
  env_read_text env (cv_path cfg) = inr e ->
  exists s' : State,
    parse_cv env cfg s = (Raise e, s')
    /\ cv_data s' = cv_data s
    /\ traceability_log s' = traceability_log s
    /\ files s' = files s.
Proof.
  intros Hext Hread. pose proof (parse_cv_outcome env cfg s) as Hrun.
  unfold cv_text_of in Hrun. rewrite Hext, Hread in Hrun.
  eexists. split; [exact Hrun|]. repeat split.
Qed.

(** The theorem of X4 at a text file that cannot be read. *)
Lemma parse_cv_read_failure_witness :
  exists s' : State,
    parse_cv Scenario.unreadable_env Scenario.e2e_cfg init
    = (Raise (OSError "Permission denied"), s')
    /\ cv_data s' = None
    /\ traceability_log s' = [].
Proof.
  pose proof (parse_cv_read_failure Scenario.unreadable_env Scenario.e2e_cfg init
                (OSError "Permission denied") eq_refl eq_refl) as Hrun.
  destruct Hrun as (s' & Hrun & Hcv & Hlog & _).
  exists s'. split; [exact Hrun|]. split; [exact Hcv | exact Hlog].
Defined.

(** ** Further properties: the run as a whole *)

(** X5: a run with valid inputs stops at the first reader that fails and
    raises the exception of that reader; the steps logged so far name the
    stages that were completed (none, [cv_parsing], or [cv_parsing] and
    [instruction_parsing]), the attribute of the failed stage is still
    unset, and no file is written. *)
Theorem run_stops_at_failing_reader (env : Env) (cfg : Config) (e : exn) :
  validate_inputs env cfg = true ->
  (cv_text_of env cfg = inr e ->
   exists s' : State,
     run env cfg init = (Raise e, s')
     /\ entry_step <$> traceability_log s' = []
     /\ cv_data s' = None
     /\ files s' = ∅)
  /\ (forall raw : string,
        cv_text_of env cfg = inl raw ->
        env_read_excel env (instructions_path cfg) = inr e ->
        exists s' : State,
          run env cfg init = (Raise e, s')
          /\ entry_step <$> traceability_log s' = ["cv_parsing"]
          /\ instructions s' = None
          /\ files s' = ∅)
  /\ (forall (raw : string) (rows : list (gmap string pyobj)) (jd : Path),
        cv_text_of env cfg = inl raw ->
        env_read_excel env (instructions_path cfg) = inl rows ->
        job_description_path cfg = Some jd ->
        env_read_text env jd = inr e ->
        exists s' : State,
          run env cfg init = (Raise e, s')
          /\ entry_step <$> traceability_log s' = ["cv_parsing"; "instruction_parsing"]
          /\ job_requirements s' = None
          /\ files s' = ∅).
Proof.
  intros Hvalid. unfold run. rewrite Hvalid. cbn [negb]. unfold bind.
  pose proof (parse_cv_outcome env cfg init) as H1.
  split; [|split].
  - intros Htext. rewrite Htext in H1. rewrite H1.
    eexists. split; [reflexivity|]. repeat split.
  - intros raw Htext Hexcel. rewrite Htext in H1.
    destruct H1 as (d & s1 & -> & _ & _ & _ & Hins1 & _ & Hfiles1 & Hlog1).
    pose proof (parse_instructions_outcome env cfg s1) as H2.
    rewrite Hexcel in H2. rewrite H2.
    exists s1. split; [reflexivity|].
    destruct Hlog1 as (es & -> & Htags & _). cbn [init traceability_log app].
    split; [exact Htags|]. split; [exact Hins1 | exact Hfiles1].
  - intros raw rows jd Htext Hexcel Hjd Hread. rewrite Htext in H1.
    destruct H1 as (d & s1 & -> & _ & _ & _ & _ & Hjob1 & Hfiles1 & Hlog1).
    pose proof (parse_instructions_outcome env cfg s1) as H2.
    rewrite Hexcel in H2.
    destruct H2 as (ins & s2 & -> & _ & _ & _ & _ & Hjob2 & Hfiles2 & Hlog2).
    pose proof (parse_job_description_outcome env cfg s2) as H3.
    rewrite Hjd, Hread in H3. rewrite H3.
    exists s2. split; [reflexivity|].
    destruct (logged_trans _ _ _ _ _ Hlog1 Hlog2) as (es & -> & Htags & _).
    cbn [init traceability_log app].
    split; [exact Htags|]. split; [now rewrite Hjob2, Hjob1|].
    now rewrite Hfiles2, Hfiles1.
Qed.

(** The theorem of X5 at a run whose CV cannot be read. *)
Lemma run_stops_at_failing_reader_witness :
  exists s' : State,
    run Scenario.unreadable_env Scenario.e2e_cfg init
    = (Raise (OSError "Permission denied"), s')
    /\ entry_step <$> traceability_log s' = []
    /\ files s' = ∅.
Proof.
  assert (validate_inputs Scenario.unreadable_env Scenario.e2e_cfg = true) as Hvalid
      by (vm_compute; reflexivity).
  pose proof (run_stops_at_failing_reader Scenario.unreadable_env Scenario.e2e_cfg
                (OSError "Permission denied") Hvalid) as Hstop.
  destruct Hstop as (Hcv & _).
  destruct (Hcv eq_refl) as (s' & Hrun & Hsteps & _ & Hfiles).
  exists s'. split; [exact Hrun|]. split; [exact Hsteps | exact Hfiles].
Defined.

Section RunFacts.

Variable env : Env.
Variable cfg : Config.

Lemma run_valid_of_ok (s s' : State) (res : Results) :
  run env cfg s = (Ok res, s') -> validate_inputs env cfg = true.
Proof.
  intros Hrun. destruct (validate_inputs env cfg) eqn:Hvalid; [reflexivity|].
  rewrite run_invalid in Hrun by exact Hvalid. discriminate Hrun.
Qed.

Lemma ppt_generation_not_parse_tag : "ppt_generation" ∉ parse_tags cfg.
Proof.
  unfold parse_tags. intros Hin.
  destruct (job_description_path cfg);
    repeat (apply elem_of_cons in Hin as [Hin|Hin]; [discriminate Hin|]);
    now apply elem_of_nil in Hin.
Qed.

Lemma length_parse_tags :
  length (parse_tags cfg ++ ["ppt_generation"])
  = match job_description_path cfg with Some _ => 4 | None => 3 end.
Proof. unfold parse_tags. now destruct (job_description_path cfg). Qed.

(** Without a slide and without a layout the engine raises. *)
Lemma populate_nothing_raises (cv : option CVData) :
  _populate_slides cv {| slide_layouts := []; slides := [] |}
  = Raise (IndexError "slide layout index out of range").
Proof. reflexivity. Qed.

(** Whenever the engine returns, the last shape of the first slide is the
    body region. *)
Lemma populate_ok_body (cv : option CVData) (prs prs' : Presentation) :
  _populate_slides cv prs = Ok prs' ->
  exists sl : Slide,
    slides prs' !! 0 = Some sl /\ last (shapes sl) = Some (body_box cv).
Proof.
  intros Hrun.
  assert (slides prs <> [] \/ slide_layouts prs <> []) as Hsome.
  { destruct prs as [layouts sls]. cbn [slides slide_layouts].
    destruct sls as [|sl rest]; [|left; discriminate].
    destruct layouts as [|l ls]; [|right; discriminate].
    rewrite populate_nothing_raises in Hrun. discriminate Hrun. }
  destruct (populate_body_last cv prs Hsome) as (prs'' & sl & Hrun' & Hsl & Hlast).
  rewrite Hrun in Hrun'. injection Hrun' as <-. eauto.
Qed.

End RunFacts.

(** X6: whenever a run on a fresh object returns, the steps of the log
    are [cv_parsing], [instruction_parsing], [jd_parsing] when a job
    description was given, and [ppt_generation], in this order; the report
    on disk holds this log, [total_steps] is 4 with a job description and
    3 without, [cv_sections_extracted] is 5, and [instruction_rules] is
    the number of rows of the sheet. *)
Theorem run_success_report (env : Env) (cfg : Config) (res : Results) (s' : State) :
  run env cfg init = (Ok res, s') ->
  entry_step <$> traceability_log s' = (parse_tags cfg ++ ["ppt_generation"])%list
  /\ exists (rep : Report) (rows : list (gmap string pyobj)),
       env_read_excel env (instructions_path cfg) = inl rows
       /\ files s' !! path_str (traceability_report res) = Some (ReportFile rep)
       /\ rep_processing_log rep = traceability_log s'
       /\ rep_total_steps rep
          = match job_description_path cfg with Some _ => 4 | None => 3 end
       /\ rep_cv_sections_extracted rep = 5
       /\ rep_instruction_rules rep = length rows.
Proof.
  intros Hrun. pose proof (run_valid_of_ok env cfg _ _ _ Hrun) as Hvalid.
  destruct (run_cases env cfg init Hvalid)
    as [(e & s1 & tags & Hrun1 & _)
       | [(e & s1 & prs' & pp & rp & Hrun1 & _)
         | (res1 & s1 & d & ins & rows & prs & prs' & rep & Hrun1 & Hlog & _ & _ & _ & _
            & Hexcel & _ & _ & _ & _ & Hfiles & Hplog & Hsteps & Hsections & Hcount)]];
    rewrite Hrun in Hrun1; try discriminate Hrun1.
  injection Hrun1 as <- <-.
  destruct Hlog as (es & Hes & Htags & _). cbn [init traceability_log app] in Hes.
  split; [now rewrite Hes|].
  exists rep, rows. split; [exact Hexcel|].
  split; [rewrite Hfiles; apply lookup_insert_eq|].
  split; [exact Hplog|].
  split; [|split; [exact Hsections | exact Hcount]].
  rewrite Hsteps, Hes, <- (length_fmap entry_step), Htags. apply length_parse_tags.
Qed.

(** The theorem of X6 at the scenario with a job description. *)
Lemma run_success_report_witness :
  exists (res : Results) (s' : State) (rep : Report),
    run (Scenario.quiet_env Scenario.jd_text [Scenario.copy_row; Scenario.row_without_value]
                            Scenario.empty_template (fun _ => ""))
        Scenario.e2e_jd_cfg init = (Ok res, s')
    /\ files s' !! path_str (traceability_report res) = Some (ReportFile rep)
    /\ rep_total_steps rep = 4
    /\ rep_instruction_rules rep = 2.
Proof.
  destruct (run (Scenario.quiet_env Scenario.jd_text
                   [Scenario.copy_row; Scenario.row_without_value]
                   Scenario.empty_template (fun _ => ""))
                Scenario.e2e_jd_cfg init) as [[res|e] s'] eqn:Hrun;
    [|vm_compute in Hrun; discriminate Hrun].
  pose proof (run_success_report _ _ res s' Hrun) as Hreport.
  destruct Hreport as (_ & rep & rows & Hexcel & Hfile & _ & Hsteps & _ & Hcount).
  exists res, s', rep. split; [reflexivity|]. split; [exact Hfile|].
  split; [exact Hsteps|]. injection Hexcel as <-. exact Hcount.
Defined.

(** X7: after a run on a fresh object, whatever its outcome, the log has
    a [ppt_generation] entry exactly when a complete slide document is
    on disk: the entry is written only after the document was saved, and
    what a failed save leaves at the path is not a document and has no
    entry. *)
Theorem run_document_logged_iff (env : Env) (cfg : Config) :
  "ppt_generation" ∈ entry_step <$> traceability_log (snd (run env cfg init))
  <-> exists (p : string) (prs : Presentation),
        files (snd (run env cfg init)) !! p = Some (PptxFile prs).
Proof.
  destruct (validate_inputs env cfg) eqn:Hvalid.
  2:{ rewrite (run_invalid env cfg init Hvalid). cbn [snd init traceability_log files].
      split.
      - intros Hin. now apply elem_of_nil in Hin.
      - intros (p & prs & Hfile). rewrite lookup_empty in Hfile. discriminate Hfile. }
  destruct (run_cases env cfg init Hvalid)
    as [(e & s1 & tags & -> & Hlog & Hprefix & Hfiles)
       | [(e & s1 & prs' & pp & rp & -> & Hlog & Hne & Hfiles)
         | (res1 & s1 & d & ins & rows & prs & prs' & rep & -> & Hlog & _ & _ & _ & _ & _
            & _ & _ & _ & Hne & Hfiles & _)]];
    cbn [snd]; destruct Hlog as (es & Hes & Htags & _);
    cbn [init traceability_log files app] in Hes, Hfiles; rewrite Hes, Htags.
  - split.
    + intros Hin. destruct Hprefix as [k Hk].
      exfalso. apply (ppt_generation_not_parse_tag cfg).
      rewrite Hk. apply elem_of_app. now left.
    + intros (p & prs & Hfile). exfalso.
      destruct Hfiles as [Hfiles|[q Hfiles]]; rewrite Hfiles in Hfile.
      * rewrite lookup_empty in Hfile. discriminate Hfile.
      * rewrite lookup_insert in Hfile. case_decide; [discriminate Hfile|].
        rewrite lookup_empty in Hfile. discriminate Hfile.
  - split.
    + intros _. exists (path_str pp), prs'.
      destruct Hfiles as [Hfiles|Hfiles]; rewrite Hfiles.
      * apply lookup_insert_eq.
      * rewrite lookup_insert_ne by (intros Heq; apply Hne; now rewrite Heq).
        apply lookup_insert_eq.
    + intros _. apply elem_of_app. right. now apply list_elem_of_singleton.
  - split.
    + intros _. exists (path_str (powerpoint res1)), prs'. rewrite Hfiles.
      rewrite lookup_insert_ne by (intros Heq; apply Hne; now rewrite Heq).
      apply lookup_insert_eq.
    + intros _. apply elem_of_app. right. now apply list_elem_of_singleton.
Qed.

(** X8: a run only appends to the log, also on an object that was used
    before: the log after the run is the log before it followed by at
    most four entries, and the summary of each new entry has at most 503
    characters. *)
Theorem run_log_append_only (env : Env) (cfg : Config) (s : State) :
  exists es : list TraceEntry,
    traceability_log (snd (run env cfg s)) = (traceability_log s ++ es)%list
    /\ length es <= 4
    /\ Forall summary_bounded es.
Proof.
  destruct (validate_inputs env cfg) eqn:Hvalid.
  2:{ rewrite (run_invalid env cfg s Hvalid). exists []. cbn [snd].
      rewrite app_nil_r. split; [reflexivity|]. split; [cbn; lia | constructor]. }
  assert (length (parse_tags cfg) <= 3) as Hparse
      by (unfold parse_tags; destruct (job_description_path cfg); cbn; lia).
  destruct (run_cases env cfg s Hvalid)
    as [(e & s1 & tags & -> & Hlog & Hprefix & _)
       | [(e & s1 & prs' & pp & rp & -> & Hlog & _)
         | (res1 & s1 & d & ins & rows & prs & prs' & rep & -> & Hlog & _)]];
    cbn [snd]; destruct Hlog as (es & Hes & Htags & Hbound);
    exists es; (split; [exact Hes|]); (split; [|exact Hbound]);
    rewrite <- (length_fmap entry_step), Htags.
  - destruct Hprefix as [k Hk]. rewrite Hk, length_app in Hparse. lia.
  - rewrite length_app. cbn [length]. lia.
  - rewrite length_app. cbn [length]. lia.
Qed.

(** X9: whenever a run on a fresh object returns, the slide document on
    disk has a first slide whose last shape is the body region, and its
    text is "Summary:", a newline and the first 200 characters of the
    text the CV was parsed from (the content of a [.txt] file, the
    placeholder otherwise); the fallback "No summary available" is never
    written by a run. *)
Theorem run_document_body (env : Env) (cfg : Config) (res : Results) (s' : State) :
  run env cfg init = (Ok res, s') ->
  exists (raw : string) (prs' : Presentation) (sl : Slide),
    cv_text_of env cfg = inl raw
    /\ files s' !! path_str (powerpoint res) = Some (PptxFile prs')
    /\ slides prs' !! 0 = Some sl
    /\ last (shapes sl)
       = Some (TextBox (Pptx.Inches 1) (Pptx.Inches 2) (Pptx.Inches 8) (Pptx.Inches 4)
                       ("Summary:" ++ PyStr.nl_str ++ PyStr.slice_to 200 raw) true).
Proof.
  intros Hrun. pose proof (run_valid_of_ok env cfg _ _ _ Hrun) as Hvalid.
  destruct (run_cases env cfg init Hvalid)
    as [(e & s1 & tags & Hrun1 & _)
       | [(e & s1 & prs1 & pp & rp & Hrun1 & _)
         | (res1 & s1 & d & ins & rows & prs & prs' & rep & Hrun1 & _ & Htext & Hsec & _ & _
            & _ & _ & _ & Hpopulate & Hne & Hfiles & _)]];
    rewrite Hrun in Hrun1; try discriminate Hrun1.
  injection Hrun1 as <- <-.
  destruct (populate_ok_body (Some d) prs prs' Hpopulate) as (sl & Hsl & Hlast).
  exists (cv_raw_text d), prs', sl. split; [exact Htext|]. split.
  - rewrite Hfiles, lookup_insert_ne by (intros Heq; apply Hne; now rewrite Heq).
    apply lookup_insert_eq.
  - split; [exact Hsl|]. rewrite Hlast. unfold body_box, body_text.
    now rewrite Hsec, extract_cv_sections_summary.
Qed.

(** The theorem of X9 at the end-to-end scenario. *)
Lemma run_document_body_witness :
  exists (res : Results) (s' : State) (prs' : Presentation) (sl : Slide),
    run Scenario.e2e_env Scenario.e2e_cfg init = (Ok res, s')
    /\ files s' !! path_str (powerpoint res) = Some (PptxFile prs')
    /\ slides prs' !! 0 = Some sl
    /\ last (shapes sl)
       = Some (TextBox (Pptx.Inches 1) (Pptx.Inches 2) (Pptx.Inches 8) (Pptx.Inches 4)
                       ("Summary:" ++ PyStr.nl_str ++ "Experienced engineer...") true).
Proof.
  destruct (run Scenario.e2e_env Scenario.e2e_cfg init) as [[res|e] s'] eqn:Hrun;
    [|vm_compute in Hrun; discriminate Hrun].
  pose proof (run_document_body _ _ res s' Hrun) as Hbody.
  destruct Hbody as (raw & prs' & sl & Htext & Hfile & Hsl & Hlast).
  exists res, s', prs', sl. split; [reflexivity|]. split; [exact Hfile|].
  split; [exact Hsl|]. rewrite Hlast. injection Htext as <-. reflexivity.
Defined.

(** ** Further properties: the population engine *)

(** X10: the engine raises exactly when the document has no slide and
    the template has no layout; the exception is then the [IndexError] of
    the layout lookup, and in every other case the engine returns. *)
Theorem populate_raises_iff (cv : option CVData) (prs : Presentation) :
  (slides prs = [] /\ slide_layouts prs = [] ->
   _populate_slides cv prs = Raise (IndexError "slide layout index out of range"))
  /\ (forall e : exn,
        _populate_slides cv prs = Raise e -> slides prs = [] /\ slide_layouts prs = [])
  /\ (slides prs <> [] \/ slide_layouts prs <> [] ->
      exists prs' : Presentation, _populate_slides cv prs = Ok prs').
Proof.
  assert (slides prs <> [] \/ slide_layouts prs <> [] ->
          exists prs' : Presentation, _populate_slides cv prs = Ok prs') as Hok.
  { intros Hsome.
    destruct (populate_body_last cv prs Hsome) as (prs' & _ & Hrun & _). eauto. }
  split; [|split; [|exact Hok]].
  - intros [Hslides Hlayouts]. destruct prs as [layouts sls].
    cbn [slides slide_layouts] in *. subst. apply populate_nothing_raises.
  - intros e Hraise. destruct prs as [layouts sls]. cbn [slides slide_layouts] in *.
    destruct sls as [|sl rest].
    + destruct layouts as [|l ls]; [split; reflexivity|].
      destruct Hok as [prs' Hrun]; [right; discriminate|].
      rewrite Hrun in Hraise. discriminate Hraise.
    + destruct Hok as [prs' Hrun]; [left; discriminate|].
      rewrite Hrun in Hraise. discriminate Hraise.
Qed.

(** X11: when no CV was parsed ([cv_data] is still the empty dictionary),
    the engine still adds the body region, with word wrap, and leaves its
    text empty. *)
Theorem populate_without_cv (prs : Presentation) :
  slides prs <> [] \/ slide_layouts prs <> [] ->
  exists (prs' : Presentation) (sl : Slide),
    _populate_slides None prs = Ok prs'
    /\ slides prs' !! 0 = Some sl
    /\ last (shapes sl)
       = Some (TextBox (Pptx.Inches 1) (Pptx.Inches 2) (Pptx.Inches 8) (Pptx.Inches 4)
                       "" true).
Proof.
  intros Hsome.
  destruct (populate_body_last None prs Hsome) as (prs' & sl & Hrun & Hsl & Hlast).
  exists prs', sl. split; [exact Hrun|]. split; [exact Hsl | exact Hlast].
Qed.

(** The theorem of X11 at a deck of two slides. *)
Lemma populate_without_cv_witness :
  exists (prs' : Presentation) (sl : Slide),
    _populate_slides None Scenario.two_slide_deck = Ok prs'
    /\ slides prs' !! 0 = Some sl
    /\ last (shapes sl)
       = Some (TextBox (Pptx.Inches 1) (Pptx.Inches 2) (Pptx.Inches 8) (Pptx.Inches 4)
                       "" true).
Proof.
  apply (populate_without_cv Scenario.two_slide_deck). left. discriminate.
Defined.

Section Repeated.

(** Text boxes after the shapes do not change which shape is the title. *)
Lemma title_app_added (cv : option CVData) (shs : list Shape) :
  Pptx.title (shs ++ added_shapes cv shs) = Pptx.title shs.
Proof.
  unfold added_shapes. generalize (Pptx.title shs) at 1 as t.
  intros t. unfold Pptx.title.
  induction shs as [|sh shs IH]; cbn [app List.find].
  - now destruct t.
  - destruct (Pptx.is_title sh); [reflexivity | exact IH].
Qed.

(** The regions a second call adds are those of the first call. *)
Lemma added_shapes_again (cv : option CVData) (shs : list Shape) :
  added_shapes cv (shs ++ added_shapes cv shs) = added_shapes cv shs.
Proof. unfold added_shapes at 1. now rewrite title_app_added. Qed.

End Repeated.

(** X12: the engine is not idempotent. On a document that has a slide, a
    second call adds to the first slide the same regions once more (the
    title region again when the slide has no title placeholder, since the
    region added by the first call is a text box), so the document is not
    the one the first call left. *)
Theorem populate_twice (cv : option CVData) (prs : Presentation)
        (sl : Slide) (rest : list Slide) :
  slides prs = sl :: rest ->
  exists (p1 p2 : Presentation) (sl2 : Slide),
    _populate_slides cv prs = Ok p1
    /\ _populate_slides cv p1 = Ok p2
    /\ slides p2 = sl2 :: rest
    /\ shapes sl2
       = (shapes sl ++ added_shapes cv (shapes sl) ++ added_shapes cv (shapes sl))%list
    /\ p2 <> p1.
Proof.
  intros Hslides. destruct prs as [layouts sls]. cbn [slides] in Hslides. subst sls.
  eexists _, _, _. split; [apply populate_first_slide|].
  split; [apply populate_first_slide|]. cbn [slides shapes slide_layout].
  split; [reflexivity|]. cbn [shapes].
  split.
  { now rewrite added_shapes_again, <- app_assoc. }
  intros Heq. injection Heq as Heq. apply (f_equal length) in Heq.
  rewrite added_shapes_again, !length_app in Heq.
  assert (0 < length (added_shapes cv (shapes sl))) as Hpos
      by (unfold added_shapes; rewrite length_app; cbn; lia).
  lia.
Qed.

(** The theorem of X12 at a deck of two slides. *)
Lemma populate_twice_witness :
  exists (p1 p2 : Presentation),
    _populate_slides None Scenario.two_slide_deck = Ok p1
    /\ _populate_slides None p1 = Ok p2
    /\ p2 <> p1.
Proof.
  destruct (populate_twice None Scenario.two_slide_deck
              {| slide_layout := Scenario.title_layout; shapes := [Placeholder 0 "Profile"] |}
              [{| slide_layout := Scenario.blank_layout; shapes := [] |}] eq_refl)
    as (p1 & p2 & sl2 & H1 & H2 & _ & _ & Hne).
  exists p1, p2. split; [exact H1|]. split; [exact H2 | exact Hne].
Defined.

(** ** Further properties: the requirements *)

Section Lines.

Lemma split_no_sep (sep : ascii) (s : string) :
  Forall (fun x => occurs sep x = false) (PyStr.split sep s).
Proof.
  induction s as [|c s IH]; cbn [PyStr.split].
  - constructor; [reflexivity | constructor].
  - destruct (Ascii.eqb c sep) eqn:Hc.
    + constructor; [reflexivity | exact IH].
    + destruct (PyStr.split sep s) as [|h t].
      * constructor; [cbn; now rewrite Hc | constructor].
      * inversion IH as [|? ? Hh Ht]; subst.
        constructor; [cbn; now rewrite Hc, Hh | exact Ht].
Qed.

Lemma split_single (sep : ascii) (x : string) :
  occurs sep x = false -> PyStr.split sep x = [x].
Proof.
  induction x as [|c x IH]; cbn [occurs PyStr.split]; [reflexivity|].
  intros Hno. apply orb_false_elim in Hno as [Hc Hx].
  now rewrite Hc, (IH Hx).
Qed.

Lemma split_app_sep (sep : ascii) (x rest : string) :
  occurs sep x = false ->
  PyStr.split sep (x ++ String sep rest) = x :: PyStr.split sep rest.
Proof.
  induction x as [|c x IH]; simpl.
  - intros _. now rewrite Ascii.eqb_refl.
  - intros Hno. apply orb_false_elim in Hno as [Hc Hx].
    now rewrite Hc, (IH Hx).
Qed.

(** Cutting what was joined gives the lines back, when no line holds the
    separator. *)
Lemma split_join (sep : ascii) (l : list string) :
  l <> [] ->
  Forall (fun x => occurs sep x = false) l ->
  PyStr.split sep (PyStr.join (String sep "") l) = l.
Proof.
  induction l as [|x l IH]; [contradiction|]. intros _ Hno.
  inversion Hno as [|? ? Hx Hl]; subst.
  destruct l as [|y l].
  - now apply split_single.
  - assert (PyStr.join (String sep "") (x :: y :: l)
            = x ++ String sep (PyStr.join (String sep "") (y :: l))) as -> by reflexivity.
    rewrite split_app_sep by exact Hx. f_equal. apply IH; [discriminate | exact Hl].
Qed.

Lemma lstrip_occurs (c : ascii) (s : string) :
  occurs c s = false -> occurs c (PyStr.lstrip s) = false.
Proof.
  induction s as [|a s IH]; cbn [occurs PyStr.lstrip]; [reflexivity|].
  intros Hno. destruct (PyStr.isspace a); [|exact Hno].
  apply orb_false_elim in Hno as [_ Hs]. exact (IH Hs).
Qed.

Lemma rstrip_occurs (c : ascii) (s : string) :
  occurs c s = false -> occurs c (PyStr.rstrip s) = false.
Proof.
  induction s as [|a s IH]; cbn [occurs PyStr.rstrip]; [reflexivity|].
  intros Hno. apply orb_false_elim in Hno as [Ha Hs]. specialize (IH Hs).
  destruct (PyStr.rstrip s) as [|b r].
  - destruct (PyStr.isspace a); [reflexivity | cbn; now rewrite Ha].
  - cbn [occurs] in *. now rewrite Ha, IH.
Qed.

Lemma strip_occurs (c : ascii) (s : string) :
  occurs c s = false -> occurs c (PyStr.strip s) = false.
Proof. intros Hno. unfold PyStr.strip. now apply rstrip_occurs, lstrip_occurs. Qed.

(** What [rstrip] returns ends with no blank character. *)
Lemma rstrip_last (s : string) :
  match last_char (PyStr.rstrip s) with
  | Some c => PyStr.isspace c = false
  | None => True
  end.
Proof.
  induction s as [|a s IH]; cbn [PyStr.rstrip]; [exact I|].
  destruct (PyStr.rstrip s) as [|b r].
  - destruct (PyStr.isspace a) eqn:Ha; [exact I | exact Ha].
  - exact IH.
Qed.

Lemma last_char_some (s : string) : s <> "" -> exists c : ascii, last_char s = Some c.
Proof.
  induction s as [|a s IH]; [contradiction|]. intros _.
  destruct s as [|b r]; [now exists a|].
  destruct IH as [c Hc]; [discriminate|]. exists c. exact Hc.
Qed.

Lemma rstrip_fixed (s : string) (c : ascii) :
  last_char s = Some c -> PyStr.isspace c = false -> PyStr.rstrip s = s.
Proof.
  induction s as [|a s IH]; [discriminate|]. intros Hlast Hc.
  destruct s as [|b r].
  - injection Hlast as ->. cbn. now rewrite Hc.
  - change (last_char (String a (String b r))) with (last_char (String b r)) in Hlast.
    cbn [PyStr.rstrip] in *. now rewrite (IH Hlast Hc).
Qed.

(** Trimming what is trimmed changes nothing. *)
Lemma strip_idempotent (s : string) : PyStr.strip (PyStr.strip s) = PyStr.strip s.
Proof.
  pose proof (strip_head s) as Hfirst.
  pose proof (rstrip_last (PyStr.lstrip s)) as Hlast.
  fold (PyStr.strip s) in Hlast.
  destruct (PyStr.strip s) as [|a r] eqn:Hstrip; [reflexivity|].
  unfold PyStr.strip at 1. cbn [PyStr.lstrip]. rewrite Hfirst.
  destruct (last_char_some (String a r)) as [c Hc]; [discriminate|].
  rewrite Hc in Hlast. exact (rstrip_fixed _ c Hc Hlast).
Qed.

Lemma requirements_all_kept (l : list string) :
  Forall (fun x => PyStr.strip x = x /\ 10 < String.length x) l ->
  List.map PyStr.strip
    (List.filter (fun line => PyStr.truthy (PyStr.strip line)
                              && (10 <? String.length (PyStr.strip line))%nat) l) = l.
Proof.
  induction 1 as [|x l [Hx Hlen] _ IH]; cbn [List.filter List.map]; [reflexivity|].
  rewrite Hx. apply Nat.ltb_lt in Hlen. rewrite Hlen.
  destruct x as [|a r]; [discriminate Hlen|].
  cbn [PyStr.truthy String.eqb negb andb List.map]. now rewrite Hx, IH.
Qed.

End Lines.

(** X13: every requirement [parse_job_description] extracts is one trimmed
    line: it has more than 10 characters, holds no newline, and neither
    starts nor ends with a blank character. *)
Theorem requirements_well_formed (jd_text r : string) :
  r ∈ requirements_of jd_text ->
  10 < String.length r
  /\ occurs PyStr.nl r = false
  /\ (exists c : ascii, first_char r = Some c /\ PyStr.isspace c = false)
  /\ (exists c : ascii, last_char r = Some c /\ PyStr.isspace c = false).
Proof.
  intros Hin. apply requirements_of_elem in Hin as (line & Hline & -> & Hlen).
  split; [exact Hlen|]. split.
  - apply strip_occurs.
    pose proof (split_no_sep PyStr.nl jd_text) as Hno.
    rewrite Forall_forall in Hno. now apply Hno.
  - pose proof (strip_head line) as Hfirst.
    pose proof (rstrip_last (PyStr.lstrip line)) as Hlast.
    fold (PyStr.strip line) in Hlast.
    destruct (PyStr.strip line) as [|a t] eqn:Hstrip; [cbn in Hlen; lia|].
    split; [now exists a|].
    destruct (last_char_some (String a t)) as [c Hc]; [discriminate|].
    rewrite Hc in Hlast. now exists c.
Qed.

(** The theorem of X13 at the example of the specification. *)
Lemma requirements_well_formed_witness :
  10 < String.length "Must have 5 years Python"
  /\ occurs PyStr.nl "Must have 5 years Python" = false.
Proof.
  assert ("Must have 5 years Python" ∈ requirements_of Scenario.jd_text) as Hin
      by (apply list_elem_of_here).
  pose proof (requirements_well_formed Scenario.jd_text "Must have 5 years Python" Hin)
    as Hwf.
  destruct Hwf as (Hlen & Hnl & _). split; [exact Hlen | exact Hnl].
Defined.

(** X14: extraction is stable: joining the extracted requirements with
    newlines and extracting again gives the same requirements. *)
Theorem requirements_of_join_fixpoint (jd_text : string) :
  requirements_of (PyStr.join PyStr.nl_str (requirements_of jd_text))
  = requirements_of jd_text.
Proof.
  assert (Forall (fun x => occurs PyStr.nl x = false
                           /\ PyStr.strip x = x /\ 10 < String.length x)
                 (requirements_of jd_text)) as Hall.
  { rewrite Forall_forall. intros r Hin.
    apply requirements_of_elem in Hin as (line & Hline & -> & Hlen).
    split; [|split; [apply strip_idempotent | exact Hlen]].
    apply strip_occurs.
    pose proof (split_no_sep PyStr.nl jd_text) as Hno.
    rewrite Forall_forall in Hno. now apply Hno. }
  destruct (requirements_of jd_text) as [|r l] eqn:Hreq; [reflexivity|].
  unfold requirements_of at 1. unfold PyStr.nl_str.
  rewrite split_join; [|discriminate|].
  - apply requirements_all_kept. eapply Forall_impl; [exact Hall|].
    intros x (_ & Hx & Hlen). auto.
  - eapply Forall_impl; [exact Hall|]. intros x (Hx & _). exact Hx.
Qed.

(** ** Further properties: the generators *)

(** X15: [generate_powerpoint] writes the complete document and its log
    entry together or not at all. When it returns, the path is the one it
    was given (when it was given one), the document is on disk under
    that path and exactly one [ppt_generation] entry was appended; when
    it raises (the template does not load, the engine fails, or the
    document cannot be saved), the log and the parsed data are as before
    and no document was added: the files are as before, or hold in
    addition what the failed save left at the output path. *)
Theorem generate_powerpoint_outcomes (env : Env) (cfg : Config)
        (output_path : option Path) (s : State) :
  match generate_powerpoint env cfg output_path s with
  | (Ok p, s') =>
      (forall q : Path, output_path = Some q -> p = q)
      /\ exists (prs' : Presentation) (e : TraceEntry),
           files s' = <[path_str p := PptxFile prs']> (files s)
           /\ traceability_log s' = (traceability_log s ++ [e])%list
           /\ entry_step e = "ppt_generation"
           /\ cv_data s' = cv_data s
  | (Raise _, s') =>
      traceability_log s' = traceability_log s
      /\ cv_data s' = cv_data s
      /\ instructions s' = instructions s
      /\ job_requirements s' = job_requirements s
      /\ (files s' = files s
          \/ exists p : Path,
               (forall q : Path, output_path = Some q -> p = q)
               /\ files s' = <[path_str p := PartialFile]> (files s))
  end.
Proof.
  unfold generate_powerpoint. unfold_monad.
  destruct output_path as [q|];
    (destruct (env_Presentation env (path_str (template_path cfg))) as [prs|e];
     [|repeat (split; [reflexivity|]); left; reflexivity]);
    (lazymatch goal with
     | |- context [_populate_slides ?c ?t] =>
         destruct (_populate_slides c t) as [prs'|e]
     end; [|repeat (split; [reflexivity|]); left; reflexivity]);
    (lazymatch goal with
     | |- context [env_save env ?p ?t] => destruct (env_save env p t) as [e|]
     end;
     [lazymatch goal with
      | |- context [env_created env ?p] => destruct (env_created env p)
      end;
      repeat (split; [reflexivity|]);
      [right; eexists; (split; [|reflexivity]); intros q' Hq; congruence
      | left; reflexivity]
     |]);
    (split; [intros q' Hq; congruence|]);
    eexists _, _; repeat split.
Qed.

Section OutputNames.

(** The last dot of a string that ends with [t] is the last dot of [t],
    when [t] has one. *)
Lemma from_last_dot_app (a t t' : string) :
  from_last_dot t = Some t' -> from_last_dot (a ++ t) = Some t'.
Proof.
  intros Ht. induction a as [|c a IH]; [exact Ht|].
  change (from_last_dot (String c (a ++ t)) = Some t').
  cbn [from_last_dot]. now rewrite IH.
Qed.

Lemma string_app_assoc (a b c : string) : (a ++ b) ++ c = a ++ b ++ c.
Proof.
  induction a as [|x a IH]; [reflexivity|].
  change (String x ((a ++ b) ++ c) = String x (a ++ b ++ c)). now rewrite IH.
Qed.

Lemma suffix_of_stem (d : Path) (c : ascii) (stem ext : string) :
  from_last_dot ext = Some ext ->
  1 < String.length ext ->
  suffix (joinpath d (String c stem ++ ext)) = ext.
Proof.
  intros Hdot Hlen. unfold suffix.
  change (path_name (joinpath d (String c stem ++ ext))) with (String c (stem ++ ext)).
  cbv beta iota. rewrite (from_last_dot_app stem ext ext Hdot).
  apply Nat.ltb_lt in Hlen. now rewrite Hlen.
Qed.

(** The string of [d / name] ends with [name]. *)
Lemma joinpath_ends_with_name (d : Path) (name : string) :
  PyStr.endswith (path_str (joinpath d name)) (path_name (joinpath d name)) = true.
Proof.
  unfold joinpath. cbn [path_str path_name].
  destruct (String.eqb (path_str d) ".").
  - apply (endswith_app "" name).
  - destruct (PyStr.endswith (path_str d) "/").
    + apply endswith_app.
    + rewrite <- string_app_assoc. apply endswith_app.
Qed.

End OutputNames.

(** X16: whatever the clock reads, the document [generate_powerpoint]
    names is called [CV_Presentation_<stamp>.pptx] and has the extension
    [.pptx], which passes the extension check [validate_inputs] makes on
    a template; the report [generate_traceability_report] names is
    called [Traceability_Report_<stamp>.json] and has the extension
    [.json]; the string of each path ends with its name, and is the name
    alone when the output directory is the current directory [.]. *)
Theorem output_names (env : Env) (cfg : Config) (s : State) :
  path_name (powerpoint_path env cfg s)
  = "CV_Presentation_" ++ env_strftime env (clock s) ++ ".pptx"
  /\ path_name (report_path env cfg s)
     = "Traceability_Report_" ++ env_strftime env (clock s) ++ ".json"
  /\ suffix (powerpoint_path env cfg s) = ".pptx"
  /\ suffix (report_path env cfg s) = ".json"
  /\ PyStr.lower (suffix (powerpoint_path env cfg s)) = ".pptx"
  /\ PyStr.endswith (path_str (powerpoint_path env cfg s))
                    (path_name (powerpoint_path env cfg s)) = true
  /\ PyStr.endswith (path_str (report_path env cfg s))
                    (path_name (report_path env cfg s)) = true
  /\ (path_str (output_dir cfg) = "." ->
      path_str (powerpoint_path env cfg s) = path_name (powerpoint_path env cfg s)
      /\ path_str (report_path env cfg s) = path_name (report_path env cfg s)).
Proof.
  assert (suffix (powerpoint_path env cfg s) = ".pptx") as Hpptx.
  { unfold powerpoint_path.
    change ("CV_Presentation_" ++ env_strftime env (clock s) ++ ".pptx")
      with (String "C" ("V_Presentation_" ++ env_strftime env (clock s) ++ ".pptx")).
    replace ("V_Presentation_" ++ env_strftime env (clock s) ++ ".pptx")
      with (("V_Presentation_" ++ env_strftime env (clock s)) ++ ".pptx").
    - apply (suffix_of_stem _ "C"); [reflexivity | cbn; lia].
    - apply string_app_assoc. }
  split; [reflexivity|]. split; [reflexivity|].
  split; [exact Hpptx|]. split.
  { unfold report_path.
    change ("Traceability_Report_" ++ env_strftime env (clock s) ++ ".json")
      with (String "T" ("raceability_Report_" ++ env_strftime env (clock s) ++ ".json")).
    replace ("raceability_Report_" ++ env_strftime env (clock s) ++ ".json")
      with (("raceability_Report_" ++ env_strftime env (clock s)) ++ ".json").
    - apply (suffix_of_stem _ "T"); [reflexivity | cbn; lia].
    - apply string_app_assoc. }
  split; [now rewrite Hpptx|].
  split; [apply joinpath_ends_with_name|]. split; [apply joinpath_ends_with_name|].
  intros Hcwd. unfold powerpoint_path, report_path, joinpath. cbn [path_str path_name].
  rewrite Hcwd. split; reflexivity.
Qed.

(** X17: [generate_traceability_report] changes neither the log nor the
    parsed data. When it returns, the report on disk holds the log as it
    is, [total_steps] is the length of that log, and the two other counts
    are 0 for an attribute that is still the empty dictionary (nothing
    was parsed); when the report cannot be written, no report is added:
    the files are as before, or hold in addition what the failed write
    left at the output path. *)
Theorem generate_traceability_report_reads_only (env : Env) (cfg : Config)
        (output_path : option Path) (s : State) :
  match generate_traceability_report env cfg output_path s with
  | (Ok p, s') =>
      traceability_log s' = traceability_log s
      /\ cv_data s' = cv_data s
      /\ instructions s' = instructions s
      /\ exists rep : Report,
           files s' = <[path_str p := ReportFile rep]> (files s)
           /\ rep_processing_log rep = traceability_log s
           /\ rep_total_steps rep = length (rep_processing_log rep)
           /\ (cv_data s = None -> rep_cv_sections_extracted rep = 0)
           /\ (instructions s = None -> rep_instruction_rules rep = 0)
           /\ (forall i : Instructions,
                 instructions s = Some i ->
                 rep_instruction_rules rep = length (ins_rules i))
  | (Raise _, s') =>
      traceability_log s' = traceability_log s
      /\ cv_data s' = cv_data s
      /\ instructions s' = instructions s
      /\ (files s' = files s
          \/ exists p : Path,
               (forall q : Path, output_path = Some q -> p = q)
               /\ files s' = <[path_str p := PartialFile]> (files s))
  end.
Proof.
  unfold generate_traceability_report. unfold_monad.
  destruct output_path as [q|];
    (lazymatch goal with
     | |- context [env_dump env ?p ?r] => destruct (env_dump env p r) as [e|]
     end;
     [lazymatch goal with
      | |- context [env_created env ?p] => destruct (env_created env p)
      end;
      repeat (split; [reflexivity|]);
      [right; eexists; (split; [|reflexivity]); intros q' Hq; congruence
      | left; reflexivity]
     |]);
    (repeat (split; [reflexivity|]); eexists; split; [reflexivity|];
     cbn [rep_processing_log rep_total_steps rep_cv_sections_extracted
          rep_instruction_rules cv_data instructions traceability_log with_clock];
     repeat split; intros; subst;
     repeat match goal with H : _ = _ |- _ => rewrite H end; reflexivity).
Qed.
